(** * Safar Travel assistant: the tool set (tools.py) and the orchestrator
      loop (manager.py), embedded as executable definitions.

    Python values are dynamically typed, so the values that reach the tools
    from a decoded JSON payload are modelled by [pyval]; exceptions are an
    explicit [Raise] outcome, returned together with the state where the
    code can have changed it before raising; the process-wide [TICKET_DB]
    dict is a [gmap string ticket]; floats are IEEE binary64 ([PrimFloat]),
    as CPython's are; what depends on the running interpreter and on the
    outside world (the Unicode case maps, the standard output, clock,
    uuids, the services) is read from an [oracle]. *)

From Stdlib Require Import ZArith QArith Qround Floats Ascii String.
From stdpp Require Import gmap strings list pretty.

Set Warnings "-inexact-float,-register-all".
Local Open Scope string_scope.
Local Open Scope list_scope.
Local Open Scope Z_scope.

(** ** Python values, exceptions and numbers *)

(** The values [json.loads] can produce.  An object keeps its pairs in
    source order. *)
Inductive pyval :=
| VNone
| VBool (b : bool)
| VInt (z : Z)
| VFloat (f : float)
| VStr (s : string)
| VList (l : list pyval)
| VDict (d : list (string * pyval)).

(** Python's truth value, as [all([...])] and [if not x] test it. *)
Definition truthy (v : pyval) : bool :=
  match v with
  | VNone => false
  | VBool b => b
  | VInt z => negb (z =? 0)%Z
  | VFloat f => negb (PrimFloat.eqb f 0%float)
  | VStr s => negb (String.eqb s "")
  | VList l => match l with [] => false | _ :: _ => true end
  | VDict d => match d with [] => false | _ :: _ => true end
  end.

Inductive pyexc :=
| TypeError
| AttributeError
| IndexError
| OverflowError
| ValueError
| JSONDecodeError
| RecursionError
| UnicodeEncodeError
| OSError
| ServiceError (msg : string).

Inductive pyresult (A : Type) :=
| Ok (a : A)
| Raise (e : pyexc).
Arguments Ok {A} a.
Arguments Raise {A} e.

#[export] Instance pyresult_ret : MRet pyresult := @Ok.
#[export] Instance pyresult_bind : MBind pyresult := λ A B f m,
  match m with
  | Ok a => f a
  | Raise e => Raise e
  end.

(** A number held in a ticket: an [int] or a [float]. *)
Inductive pynum :=
| PInt (z : Z)
| PFloat (f : float).

(** [float(z)]: correctly rounded, [OverflowError] past the binary64 range. *)
Definition float_of_int (z : Z) : pyresult float :=
  match binary_normalize prec emax z 0 false with
  | S754_infinity _ => Raise OverflowError
  | sf => Ok (SF2Prim sf)
  end.

(** [n * f] for a float literal [f]. *)
Definition py_mul_float (n : pynum) (f : float) : pyresult float :=
  match n with
  | PInt z => x ← float_of_int z; Ok (x * f)%float
  | PFloat x => Ok (x * f)%float
  end.

(** [int(f)]: truncation toward zero. *)
Definition py_int (f : float) : pyresult Z :=
  match Prim2SF f with
  | S754_zero _ => Ok 0
  | S754_infinity _ => Raise OverflowError
  | S754_nan => Raise ValueError
  | S754_finite s m e =>
      let a := if 0 <=? e then Z.pos m * 2 ^ e else Z.pos m / 2 ^ (- e) in
      Ok (if s then - a else a)
  end.

(** [n - z] for an int [z]. *)
Definition py_sub_int (n : pynum) (z : Z) : pyresult pynum :=
  match n with
  | PInt p => Ok (PInt (p - z))
  | PFloat x => y ← float_of_int z; Ok (PFloat (x - y)%float)
  end.

(** The exact rational value of a number (0 for nan and the infinities). *)
Definition float_value (f : float) : Q :=
  match Prim2SF f with
  | S754_finite s m e =>
      let a := if 0 <=? e then inject_Z (Z.pos m * 2 ^ e)
               else Z.pos m # Z.to_pos (2 ^ (- e)) in
      if s then Qopp a else a
  | _ => 0%Q
  end.

Definition num_value (n : pynum) : Q :=
  match n with
  | PInt z => inject_Z z
  | PFloat f => float_value f
  end.

(** Python's [round] on an exact value: nearest integer, ties to even. *)
Definition py_round (q : Q) : Z :=
  let f := Qfloor q in
  match Qcompare (q - inject_Z f) (1 # 2) with
  | Lt => f
  | Gt => f + 1
  | Eq => if Z.even f then f else f + 1
  end.

(** ** Strings, the interpreter and the outside world *)

(** A [string] holds the UTF-8 bytes of a Python [str]; a lone surrogate,
    which a [str] can hold though no encoding takes it, is held as the
    three bytes of its code point.  Concatenation, comparison and the test
    for the empty text are the same on the bytes as on the characters. *)

(** The bytes 10xxxxxx, which continue a character. *)
Definition is_continuation (c : ascii) : bool :=
  let n := nat_of_ascii c in ((128 <=? n) && (n <? 192))%nat.

(** [s[:n]]: the first [n] characters, each with the bytes that continue
    it. *)
Fixpoint str_prefix (n : nat) (s : string) : string :=
  match s with
  | EmptyString => EmptyString
  | String c rest =>
      if is_continuation c then String c (str_prefix n rest)
      else match n with
           | O => EmptyString
           | S n' => String c (str_prefix n' rest)
           end
  end.

(** An f-string before rendering: literal text and interpolated values. *)
Inductive fpart :=
| Lit (s : string)
| Fmt (v : pyval)
| FmtExc (e : pyexc)
| FmtThousands (n : pynum).

Definition fstring := list fpart.

(** What the program takes from the interpreter and from outside.

    [str_upper] and [str_lower] are [str.upper] and [str.lower], the case
    maps of the interpreter's Unicode database.  [py_print line] is what
    [print] does with the line: [None] when it returns, [Some e] when it
    raises [e] ([UnicodeEncodeError] for a character the encoder of
    [sys.stdout] does not take, [OSError] for a stream that fails); the
    outcome is taken to depend on the line alone, as that of encoding
    does.

    [uuid4_hex n] and [strftime_now n] are the values [uuid.uuid4().hex]
    and [datetime.now().strftime(...)] return at reading [n];
    [collection_count] and [collection_query] are the ChromaDB collection
    ([query] answers with the [documents] entry of its result);
    [json_completion n prefs] is the structured-output completion request of
    [search_destinations] followed by [json.loads] of its content. *)
Record oracle := {
  str_upper : string → string;
  str_lower : string → string;
  py_print : fstring → option pyexc;
  uuid4_hex : nat → string;
  strftime_now : nat → string;
  collection_count : nat;
  collection_query : pyval → pyresult (option (list (list string)));
  json_completion : nat → pyval → pyresult pyval
}.

(** [v.lower()] *)
Definition py_lower (O : oracle) (v : pyval) : pyresult string :=
  match v with
  | VStr s => Ok (str_lower O s)
  | _ => Raise AttributeError
  end.

(** [v[:n].upper()]: numbers and [None] cannot be sliced, a list slice has
    no [upper]; slicing a dict fails too ([TypeError], [KeyError] from
    Python 3.12 on: the one handler of [book_ticket] takes either). *)
Definition py_prefix_upper (O : oracle) (n : nat) (v : pyval) : pyresult string :=
  match v with
  | VStr s => Ok (str_upper O (str_prefix n s))
  | VList _ => Raise AttributeError
  | _ => Raise TypeError
  end.

(** ** The ticket store (tools.py) *)

Inductive ticket_status := CONFIRMED | CANCELLED.

(** One entry of [TICKET_DB].  The five request fields hold the argument
    objects as they were passed; [cancellation_date] is the key that
    [cancel_ticket] adds. *)
Record ticket := {
  ticket_id : string;
  origin : pyval;
  destination : pyval;
  travel_date : pyval;
  departure_time : string;
  passenger_name : pyval;
  national_id : pyval;
  price_irr : pynum;
  status : ticket_status;
  booking_date : string;
  cancellation_date : option string
}.

Inductive tool_status := success | error | info.

#[export] Instance tool_status_eq_dec : EqDecision tool_status.
Proof. solve_decision. Defined.

(** The keys a tool result carries besides [status] and [message]. *)
Inductive payload :=
| NoPayload
| Details (details : ticket)
| Refund (ticket_id : pyval) (refund_amount_irr : Z)
| Policy (relevant_policy : string)
| Data (data : pyval).

Record tool_result := {
  result_status : tool_status;
  message : fstring;
  fields : payload
}.

Definition travel_times : list string := ["08:00"; "14:30"; "20:00"].

(** [_generate_ticket_id]; [hex] is [uuid.uuid4().hex]. *)
Definition _generate_ticket_id (O : oracle) (hex : string)
    (origin destination : pyval) : pyresult string :=
  o ← py_prefix_upper O 2 origin;
  d ← py_prefix_upper O 2 destination;
  Ok ("SF-" +:+ (o +:+ d) +:+ "-" +:+ str_upper O (str_prefix 6 hex)).

(** The [try] block of [book_ticket] up to the dict [ticket_data]; [now]
    is what [datetime.now().strftime(...)] returns. *)
Definition ticket_data (O : oracle) (hex now : string)
    (TICKET_DB : gmap string ticket)
    (origin_city destination_city travel_date passenger_name national_id : pyval)
  : pyresult ticket :=
  d ← py_lower O destination_city;
  base_price ← (if bool_decide (d ∈ ["kish"; "qeshm"])
                then x ← py_mul_float (PInt 1500000) 1.5; Ok (PFloat x)
                else Ok (PInt 1500000));
  ticket_id ← _generate_ticket_id O hex origin_city destination_city;
  match travel_times !! (size TICKET_DB mod 3)%nat with
  | None => Raise IndexError
  | Some departure =>
      Ok {| ticket_id := ticket_id;
            origin := origin_city;
            destination := destination_city;
            travel_date := travel_date;
            departure_time := departure;
            passenger_name := passenger_name;
            national_id := national_id;
            price_irr := base_price;
            status := CONFIRMED;
            booking_date := now;
            cancellation_date := None |}
  end.

Definition booked_result (ticket_data : ticket) : tool_result :=
  {| result_status := success;
     message := [Lit "بلیط شما با موفقیت رزرو شد. (Ticket successfully booked)."];
     fields := Details ticket_data |}.

Definition booked_line (ticket_id : string) : fstring :=
  [Lit "DEBUG: Ticket booked - ID: "; Fmt (VStr ticket_id)].

(** The [try] block of [book_ticket]: the ticket is stored, then the debug
    line with its id is printed, then the result is returned.  The store is
    returned with an exception too: the [print] comes after the
    assignment to [TICKET_DB]. *)
Definition book_ticket_try (O : oracle) (hex now : string)
    (TICKET_DB : gmap string ticket)
    (origin_city destination_city travel_date passenger_name national_id : pyval)
  : pyresult tool_result * gmap string ticket :=
  match ticket_data O hex now TICKET_DB origin_city destination_city
          travel_date passenger_name national_id with
  | Raise e => (Raise e, TICKET_DB)
  | Ok ticket_data =>
      let TICKET_DB' := <[ticket_id ticket_data := ticket_data]> TICKET_DB in
      match py_print O (booked_line (ticket_id ticket_data)) with
      | None => (Ok (booked_result ticket_data), TICKET_DB')
      | Some e => (Raise e, TICKET_DB')
      end
  end.

Definition missing_information : tool_result :=
  {| result_status := error;
     message := [Lit "Missing required booking information. Please provide origin city, destination city, travel date, passenger name, and national ID (کد ملی)."];
     fields := NoPayload |}.

Definition internal_error (e : pyexc) : tool_result :=
  {| result_status := error;
     message := [Lit "An internal error occurred during booking: "; FmtExc e];
     fields := NoPayload |}.

(** [TicketManagementTool.book_ticket]; [hex] and [now] are what
    [uuid.uuid4().hex] and [datetime.now().strftime(...)] return in this
    call.  The handler turns every exception of the [try] block into an
    error result and leaves the store as the block has left it. *)
Definition book_ticket (O : oracle) (hex now : string)
    (TICKET_DB : gmap string ticket)
    (origin_city destination_city travel_date passenger_name national_id : pyval)
  : tool_result * gmap string ticket :=
  if negb (forallb truthy
             [origin_city; destination_city; travel_date; passenger_name; national_id])
  then (missing_information, TICKET_DB)
  else
    match book_ticket_try O hex now TICKET_DB origin_city destination_city
            travel_date passenger_name national_id with
    | (Ok r, TICKET_DB') => (r, TICKET_DB')
    | (Raise e, TICKET_DB') => (internal_error e, TICKET_DB')
    end.

(** [TICKET_DB.get(key)]: the keys are strings, so only a string can be
    found; a list or a dict is unhashable. *)
Definition db_get (TICKET_DB : gmap string ticket) (key : pyval)
  : pyresult (option (string * ticket)) :=
  match key with
  | VStr k => Ok (pair k <$> TICKET_DB !! k)
  | VList _ | VDict _ => Raise TypeError
  | _ => Ok None
  end.

Definition not_found (ticket_id : pyval) : tool_result :=
  {| result_status := error;
     message := [Lit "Ticket ID '"; Fmt ticket_id; Lit "' not found. Please check the ID."];
     fields := NoPayload |}.

(** The two assignments [ticket["status"] = "CANCELLED"] and
    [ticket["cancellation_date"] = ...] of [cancel_ticket]. *)
Definition mark_cancelled (now : string) (t : ticket) : ticket :=
  {| ticket_id := ticket_id t;
     origin := origin t;
     destination := destination t;
     travel_date := travel_date t;
     departure_time := departure_time t;
     passenger_name := passenger_name t;
     national_id := national_id t;
     price_irr := price_irr t;
     status := CANCELLED;
     booking_date := booking_date t;
     cancellation_date := Some now |}.

(** [refund_amount] and [penalty_amount] of [cancel_ticket]. *)
Definition refund_and_penalty (price_irr : pynum) : pyresult (Z * pynum) :=
  let refund_percentage := 0.70%float in
  x ← py_mul_float price_irr refund_percentage;
  refund_amount ← py_int x;
  penalty_amount ← py_sub_int price_irr refund_amount;
  Ok (refund_amount, penalty_amount).

Definition cancelled_result (ticket_id : pyval) (refund_amount : Z)
    (penalty_amount : pynum) : tool_result :=
  {| result_status := success;
     message := [Lit "Ticket "; Fmt ticket_id;
                 Lit " has been successfully cancelled. A refund of ";
                 FmtThousands (PInt refund_amount);
                 Lit " IRR (70% of price) will be processed. Penalty applied: ";
                 FmtThousands penalty_amount; Lit " IRR."];
     fields := Refund ticket_id refund_amount |}.

Definition already_cancelled (ticket_id : pyval) : tool_result :=
  {| result_status := info;
     message := [Lit "Ticket ID '"; Fmt ticket_id; Lit "' is already cancelled."];
     fields := NoPayload |}.

Definition cancelled_line (ticket_id : pyval) : fstring :=
  [Lit "DEBUG: Ticket cancelled - ID: "; Fmt ticket_id].

(** [TicketManagementTool.cancel_ticket].  The store entry is the dict that
    is mutated, and it is stored again under the same key; the debug line
    is printed after that and outside any handler, so an exception of the
    [print] comes with the ticket already marked. *)
Definition cancel_ticket (O : oracle) (now : string)
    (TICKET_DB : gmap string ticket) (ticket_id : pyval)
  : pyresult tool_result * gmap string ticket :=
  match db_get TICKET_DB ticket_id with
  | Raise e => (Raise e, TICKET_DB)
  | Ok None => (Ok (not_found ticket_id), TICKET_DB)
  | Ok (Some (key, ticket)) =>
      match status ticket with
      | CANCELLED =>
          (Ok (already_cancelled ticket_id), TICKET_DB)
      | CONFIRMED =>
          match refund_and_penalty (price_irr ticket) with
          | Raise e => (Raise e, TICKET_DB)
          | Ok (refund_amount, penalty_amount) =>
              let TICKET_DB' := <[key := mark_cancelled now ticket]> TICKET_DB in
              match py_print O (cancelled_line ticket_id) with
              | None =>
                  (Ok (cancelled_result ticket_id refund_amount penalty_amount),
                   TICKET_DB')
              | Some e => (Raise e, TICKET_DB')
              end
          end
      end
  end.

(** [TicketManagementTool.get_ticket_info] *)
Definition get_ticket_info (TICKET_DB : gmap string ticket) (ticket_id : pyval)
  : pyresult tool_result :=
  found ← db_get TICKET_DB ticket_id;
  match found with
  | None => Ok (not_found ticket_id)
  | Some (_, ticket) =>
      Ok {| result_status := success;
            message := [Lit "Ticket information retrieved."];
            fields := Details ticket |}
  end.

(** ** The policy and destination tools *)

(** [RAGTool.lookup_policy] *)
Definition lookup_policy (O : oracle) (query : pyval) : pyresult tool_result :=
  if (collection_count O =? 0)%nat
  then Ok {| result_status := error;
             message := [Lit "Policy knowledge base is not available."];
             fields := NoPayload |}
  else
    results ← collection_query O query;
    match results with
    | Some ((relevant_text :: _) :: _) =>
        Ok {| result_status := success;
              message := [Lit "Policy information retrieved from Safar Travel knowledge base."];
              fields := Policy relevant_text |}
    | _ =>
        Ok {| result_status := info;
              message := [Lit "No direct match in the policy knowledge base."];
              fields := NoPayload |}
    end.

(** [DestinationTool.search_destinations]: the whole request is inside the
    [try] block. *)
Definition search_destinations (O : oracle) (n : nat) (user_preferences : pyval)
  : tool_result :=
  match json_completion O n user_preferences with
  | Ok recommendations_data =>
      {| result_status := success;
         message := [Lit "Destination suggestions generated by LLM reasoning. Use this data to present recommendations to the user."];
         fields := Data recommendations_data |}
  | Raise e =>
      {| result_status := error;
         message := [Lit "Failed to generate destination recommendations using LLM reasoning: "; FmtExc e];
         fields := NoPayload |}
  end.

(** ** Tool dispatch (manager.py) *)

(** The bound methods [SafarTools.get_tool_callables] returns. *)
Inductive callable :=
| ticket_tool_book_ticket
| ticket_tool_cancel_ticket
| ticket_tool_get_ticket_info
| rag_tool_lookup_policy
| destination_tool_search_destinations.

Definition __name__ (f : callable) : string :=
  match f with
  | ticket_tool_book_ticket => "book_ticket"
  | ticket_tool_cancel_ticket => "cancel_ticket"
  | ticket_tool_get_ticket_info => "get_ticket_info"
  | rag_tool_lookup_policy => "lookup_policy"
  | destination_tool_search_destinations => "search_destinations"
  end.

(** The parameter names of each method, [self] apart. *)
Definition parameters (f : callable) : list string :=
  match f with
  | ticket_tool_book_ticket =>
      ["origin_city"; "destination_city"; "travel_date"; "passenger_name"; "national_id"]
  | ticket_tool_cancel_ticket => ["ticket_id"]
  | ticket_tool_get_ticket_info => ["ticket_id"]
  | rag_tool_lookup_policy => ["query"]
  | destination_tool_search_destinations => ["user_preferences"]
  end.

Definition get_tool_callables : list callable :=
  [ticket_tool_book_ticket; ticket_tool_cancel_ticket; ticket_tool_get_ticket_info;
   rag_tool_lookup_policy; destination_tool_search_destinations].

(** The text of an argument payload, represented by what [json.loads] does
    with it: it returns a value, it raises [JSONDecodeError], or it raises
    another exception [e] ([RecursionError] for a text nested too deep,
    [ValueError] for an integer with more digits than the interpreter
    converts). *)
Inductive json_text :=
| JSON (value : pyval)
| NotJSON (text : string)
| Unloadable (text : string) (e : pyexc).

Definition json_loads (t : json_text) : pyresult pyval :=
  match t with
  | JSON v => Ok v
  | NotJSON _ => Raise JSONDecodeError
  | Unloadable _ e => Raise e
  end.

Record function_call := { name : string; arguments : json_text }.
Record tool_call := { call_id : string; function : function_call }.

(** The state the tools share: the module-level [TICKET_DB] and the number
    of readings of the outside world made so far. *)
Record world := { TICKET_DB : gmap string ticket; clock : nat }.

Fixpoint kwargs_get (key : string) (d : list (string * pyval)) : option pyval :=
  match d with
  | [] => None
  | (k, v) :: d' => if String.eqb k key then Some v else kwargs_get key d'
  end.

Fixpoint bind_parameters (params : list string) (d : list (string * pyval))
  : pyresult (list pyval) :=
  match params with
  | [] => Ok []
  | p :: params' =>
      match kwargs_get p d with
      | None => Raise TypeError
      | Some v => vs ← bind_parameters params' d; Ok (v :: vs)
      end
  end.

(** Keyword-argument unpacking of the decoded payload, up to the entry of
    the body: the payload must be a mapping that names every parameter and
    nothing else. *)
Definition bind_kwargs (f : callable) (function_args : pyval) : pyresult (list pyval) :=
  match function_args with
  | VDict d =>
      if forallb (λ kv, bool_decide (kv.1 ∈ parameters f)) d
      then bind_parameters (parameters f) d
      else Raise TypeError
  | _ => Raise TypeError
  end.

(** The call of [function_to_call] on the unpacked [function_args].  The
    world is returned with an exception too, as the call has left it. *)
Definition call (O : oracle) (f : callable) (function_args : pyval) (w : world)
  : pyresult tool_result * world :=
  match bind_kwargs f function_args with
  | Raise e => (Raise e, w)
  | Ok args =>
      let n := clock w in
      match f, args with
      | ticket_tool_book_ticket,
        [origin_city; destination_city; travel_date; passenger_name; national_id] =>
          let '(r, db) := book_ticket O (uuid4_hex O n) (strftime_now O n) (TICKET_DB w)
                            origin_city destination_city travel_date passenger_name
                            national_id in
          (Ok r, {| TICKET_DB := db; clock := S n |})
      | ticket_tool_cancel_ticket, [ticket_id] =>
          let '(r, db) := cancel_ticket O (strftime_now O n) (TICKET_DB w) ticket_id in
          (r, {| TICKET_DB := db; clock := S n |})
      | ticket_tool_get_ticket_info, [ticket_id] =>
          (get_ticket_info (TICKET_DB w) ticket_id, w)
      | rag_tool_lookup_policy, [query] =>
          (lookup_policy O query, w)
      | destination_tool_search_destinations, [user_preferences] =>
          (Ok (search_destinations O n user_preferences),
           {| TICKET_DB := TICKET_DB w; clock := S n |})
      | _, _ => (Raise TypeError, w)
      end
  end.

(** [{f.__name__: f for f in self.tool_callables}] *)
Definition func_map : gmap string callable :=
  foldl (λ m f, <[__name__ f := f]> m) ∅ get_tool_callables.

Definition unknown_function (function_name : string) : tool_result :=
  {| result_status := error;
     message := [Lit "Unknown function: "; Fmt (VStr function_name)];
     fields := NoPayload |}.

Definition decode_error (function_name : string) : tool_result :=
  {| result_status := error;
     message := [Lit "Error decoding JSON arguments for "; Fmt (VStr function_name)];
     fields := NoPayload |}.

Definition executing_line (function_name : string) (function_args : pyval) : fstring :=
  [Lit "DEBUG: Executing tool: "; Fmt (VStr function_name);
   Lit " with args: "; Fmt function_args].

(** [AgentManager._execute_tool_call]: the handler around [json.loads]
    takes [JSONDecodeError] alone; the debug line and the call are outside
    any handler. *)
Definition _execute_tool_call (O : oracle) (w : world) (tool_call : tool_call)
  : pyresult tool_result * world :=
  let function_name := name (function tool_call) in
  match func_map !! function_name with
  | None => (Ok (unknown_function function_name), w)
  | Some function_to_call =>
      match json_loads (arguments (function tool_call)) with
      | Raise JSONDecodeError => (Ok (decode_error function_name), w)
      | Raise e => (Raise e, w)
      | Ok function_args =>
          match py_print O (executing_line function_name function_args) with
          | Some e => (Raise e, w)
          | None => call O function_to_call function_args w
          end
      end
  end.

(** ** The orchestrator loop (manager.py) *)

(** The message of a completion: [content] may be [None], [tool_calls] is
    the requested calls ([None] and the empty list are both falsy and are one
    value here). *)
Record chat_message := { content : option string; tool_calls : list tool_call }.

(** An entry of the history; a [tool] entry keeps the result it serialises. *)
Inductive history_message :=
| SystemMessage (content : string)
| UserMessage (content : string)
| AssistantMessage (content : string)
| AssistantToolCalls (model_dump : chat_message)
| ToolMessage (tool_call_id : string) (name : string) (content : tool_result).

(** What [client.chat.completions.create] does: it raises, [e] being the
    text of the exception, or it returns the message of the first choice. *)
Inductive completion :=
| APIFailure (e : string)
| Completion (model_response : chat_message).

(** The Completion Service: its answer to the [i]-th request of a turn,
    given the messages sent. *)
Definition completion_service := nat → list history_message → completion.

(** An [AgentManager] and the state its tools share. *)
Record session := { history : list history_message; outside : world }.

Definition set_history (s : session) (h : list history_message) : session :=
  {| history := h; outside := outside s |}.

Inductive outcome :=
| Returns (text : string)
| Raises (e : pyexc).

Definition api_error_msg (e : string) : string :=
  "متاسفانه در حال حاضر امکان برقراری ارتباط با سیستم وجود ندارد. لطفا کمی بعد دوباره تلاش کنید. (An API error occurred: "
  +:+ e +:+ ")".

Definition fallback_msg : string :=
  "متاسفانه نتوانستم درخواست شما را متوجه شوم. آیا میتوانید واضح تر توضیح دهید؟ (I could not understand your request. Can you explain more clearly?)".

Definition max_steps_msg : string :=
  "Sorry, I reached the maximum number of internal steps. Could you please simplify your request?".

(** The test [if model_response.content]: a string that is not empty. *)
Definition if_content (content : option string) : option string :=
  match content with
  | Some (String _ _ as text) => Some text
  | _ => None
  end.

(** [self.history.pop()]; the history is never empty where it is called. *)
Definition pop (h : list history_message) : list history_message := removelast h.

(** The inner [for tool_call in model_response.tool_calls] loop, building
    [tool_outputs]; an exception leaves the loop with the store as the calls
    made so far have left it. *)
(** The inner [for tool_call in model_response.tool_calls] loop, building
    [tool_outputs]; an exception leaves the loop with the store as the calls
    made so far have left it. *)
Fixpoint run_tool_calls (O : oracle) (w : world) (calls : list tool_call)
  : pyresult (list history_message) * world :=
  match calls with
  | [] => (Ok [], w)
  | tool_call :: calls' =>
      match _execute_tool_call O w tool_call with
      | (Raise e, w') => (Raise e, w')
      | (Ok tool_result, w') =>
          let output := ToolMessage (call_id tool_call) (name (function tool_call)) tool_result in
          match run_tool_calls O w' calls' with
          | (Ok tool_outputs, w'') => (Ok (output :: tool_outputs), w'')
          | (Raise e, w'') => (Raise e, w'')
          end
      end
  end.

(** The body of [for _ in range(5)] over the remaining indices, and the
    [return] after the loop.  [messages_to_send] is the history list itself
    (the assignment aliases it), so what is appended to one is appended to
    the history. *)
Fixpoint for_range (C : completion_service) (O : oracle) (range : list nat)
    (s : session) : outcome * session :=
  match range with
  | [] => (Returns max_steps_msg, s)
  | i :: range' =>
      match C i (history s) with
      | APIFailure e => (Returns (api_error_msg e), set_history s (pop (history s)))
      | Completion model_response =>
          match if_content (content model_response) with
          | Some final_response =>
              (Returns final_response,
               set_history s (history s ++ [AssistantMessage final_response]))
          | None =>
              match tool_calls model_response with
              | _ :: _ =>
                  let h1 := history s ++ [AssistantToolCalls model_response] in
                  match run_tool_calls O (outside s) (tool_calls model_response) with
                  | (Ok tool_outputs, w) =>
                      for_range C O range'
                        {| history := h1 ++ tool_outputs; outside := w |}
                  | (Raise e, w) => (Raises e, {| history := h1; outside := w |})
                  end
              | [] => (Returns fallback_msg, set_history s (pop (history s)))
              end
          end
      end
  end.

(** [AgentManager.process_message] *)
Definition process_message (C : completion_service) (O : oracle) (s : session)
    (user_message : string) : outcome * session :=
  for_range C O (seq 0 5)
    (set_history s (history s ++ [UserMessage user_message])).

(** ** Stores the program can reach *)

(** [TICKET_DB] starts empty and only [book_ticket] and [cancel_ticket]
    assign to it; an assignment made before an exception stays. *)
Inductive reachable : gmap string ticket → Prop :=
| reachable_empty : reachable ∅
| reachable_book O hex now db o d date p nid :
    reachable db → reachable (book_ticket O hex now db o d date p nid).2
| reachable_cancel O now db key :
    reachable db → reachable (cancel_ticket O now db key).2.

(** The ticket [book_ticket] builds from its arguments and the store size. *)
Definition new_ticket (O : oracle) (hex now : string) (db : gmap string ticket)
    (os ds : string) (date p nid : pyval) (departure : string) : ticket :=
  {| ticket_id := "SF-" +:+ (str_upper O (str_prefix 2 os) +:+ str_upper O (str_prefix 2 ds))
                    +:+ "-" +:+ str_upper O (str_prefix 6 hex);
     origin := VStr os;
     destination := VStr ds;
     travel_date := date;
     departure_time := departure;
     passenger_name := p;
     national_id := nid;
     price_irr := if bool_decide (str_lower O ds ∈ ["kish"; "qeshm"])
                  then PFloat 2250000 else PInt 1500000;
     status := CONFIRMED;
     booking_date := now;
     cancellation_date := None |}.

Definition booked_price (t : ticket) : Prop :=
  price_irr t = PInt 1500000 ∨ price_irr t = PFloat 2250000.

(** ** A sample interpreter and sample services *)

(** The case maps on ASCII text: [str.upper] and [str.lower] change its 26
    letters and nothing else.  The samples use them on ASCII text and on a
    lone surrogate, which has no case. *)
Definition ascii_lower (c : ascii) : ascii :=
  let n := nat_of_ascii c in
  if ((65 <=? n) && (n <=? 90))%nat then ascii_of_nat (n + 32) else c.

Definition ascii_upper (c : ascii) : ascii :=
  let n := nat_of_ascii c in
  if ((97 <=? n) && (n <=? 122))%nat then ascii_of_nat (n - 32) else c.

Fixpoint str_map (f : ascii → ascii) (s : string) : string :=
  match s with
  | EmptyString => EmptyString
  | String c s' => String (f c) (str_map f s')
  end.

Definition lower : string → string := str_map ascii_lower.
Definition upper : string → string := str_map ascii_upper.

(** Whether a text holds a surrogate: the byte 237 followed by a byte from
    160 on starts the code points U+D800 to U+DFFF and nothing else. *)
Fixpoint has_surrogate (s : string) : bool :=
  match s with
  | EmptyString => false
  | String c rest =>
      match rest with
      | EmptyString => false
      | String c' _ =>
          ((nat_of_ascii c =? 237) && (160 <=? nat_of_ascii c'))%nat
          || has_surrogate rest
      end
  end.

(** A standard output that encodes to UTF-8 and is strict about errors: it
    takes every character but a surrogate.  A string is put in a line as it
    is; a list or a dict is put by its [repr], which escapes surrogates. *)
Definition utf8_encodable (part : fpart) : bool :=
  match part with
  | Lit s => negb (has_surrogate s)
  | Fmt (VStr s) => negb (has_surrogate s)
  | _ => true
  end.

Definition utf8_stdout (line : fstring) : option pyexc :=
  if forallb utf8_encodable line then None else Some UnicodeEncodeError.

(** A store with one confirmed ticket to Kish, used to exercise the
    statements below. *)
Definition sample_hex : string := "0a1b2c3d4e5f60718293a4b5c6d7e8f9".

Definition mock_oracle : oracle :=
  {| str_upper := upper;
     str_lower := lower;
     py_print := utf8_stdout;
     uuid4_hex := λ _, sample_hex;
     strftime_now := λ _, "2025-03-01 09:15:00";
     collection_count := 0;
     collection_query := λ _, Ok None;
     json_completion := λ _ _, Raise (ServiceError "connection refused") |}.

Definition sample_booking : tool_result * gmap string ticket :=
  book_ticket mock_oracle sample_hex "2025-03-01 09:15:00" ∅
    (VStr "Tehran") (VStr "Kish") (VStr "1403/12/20")
    (VStr "Sara Ahmadi") (VStr "0012345678").

Definition sample_ticket : ticket :=
  new_ticket mock_oracle sample_hex "2025-03-01 09:15:00" ∅ "Tehran" "Kish"
    (VStr "1403/12/20") (VStr "Sara Ahmadi") (VStr "0012345678") "08:00".

Definition sample_cancelled_store : gmap string ticket :=
  {[ "SF-TEKI-0A1B2C" := mark_cancelled "2025-03-02 10:00:00" sample_ticket ]}.

Definition sample_cancellation : pyresult tool_result * gmap string ticket :=
  (Ok (cancelled_result (VStr "SF-TEKI-0A1B2C") 1575000 (PFloat 675000)),
   {[ "SF-TEKI-0A1B2C" := mark_cancelled "2025-03-02 10:00:00" sample_ticket ]}).

Definition fresh_world : world := {| TICKET_DB := ∅; clock := 0 |}.

Definition undecodable_request : tool_call :=
  {| call_id := "call_7";
     function := {| name := "cancel_ticket"; arguments := NotJSON "{'ticket_id': SF-1" |} |}.

(** A request that has both defects: the name is looked up first, so the
    result reports the unknown function and says nothing of the payload. *)
Definition unknown_and_undecodable_request : tool_call :=
  {| call_id := "call_8";
     function := {| name := "refund_ticket"; arguments := NotJSON "{'ticket_id': SF-1" |} |}.

(** A [book_ticket] request in which [national_id] is left out. *)
Definition incomplete_booking_request : tool_call :=
  {| call_id := "call_1";
     function :=
       {| name := "book_ticket";
          arguments :=
            JSON (VDict [("origin_city", VStr "Tehran");
                         ("destination_city", VStr "Kish");
                         ("travel_date", VStr "1403/12/20");
                         ("passenger_name", VStr "Sara Ahmadi")]) |} |}.

(** The same request with [national_id] present and empty. *)
Definition empty_field_booking_request : tool_call :=
  {| call_id := "call_2";
     function :=
       {| name := "book_ticket";
          arguments :=
            JSON (VDict [("origin_city", VStr "Tehran");
                         ("destination_city", VStr "Kish");
                         ("travel_date", VStr "1403/12/20");
                         ("passenger_name", VStr "Sara Ahmadi");
                         ("national_id", VStr "")]) |} |}.

(** A new session and some mock Completion Services. *)
Definition new_session : session :=
  {| history := [SystemMessage "You are the AI Customer Service Agent for Safar Travel."];
     outside := fresh_world |}.

Definition answers_at_once : completion_service :=
  λ _ _, Completion {| content := Some "Your ticket is confirmed."; tool_calls := [] |}.

(** A tool-call round: the completion of iteration [i] carries no text and
    requests calls, and every call is dispatched to a result.  [rounds]
    lists, for the consecutive iterations from [i] on, the completion, the
    tool outputs and the store the round leaves. *)
Fixpoint tool_rounds (C : completion_service) (O : oracle) (i : nat) (s : session)
    (rounds : list (chat_message * list history_message * world)) : Prop :=
  match rounds with
  | [] => True
  | (model_response, tool_outputs, w) :: rounds' =>
      C i (history s) = Completion model_response ∧
      if_content (content model_response) = None ∧
      tool_calls model_response ≠ [] ∧
      run_tool_calls O (outside s) (tool_calls model_response) = (Ok tool_outputs, w) ∧
      tool_rounds C O (S i)
        {| history := history s ++ AssistantToolCalls model_response :: tool_outputs;
           outside := w |} rounds'
  end.

(** What the rounds append to the history, and the store they leave. *)
Definition exchanges (rounds : list (chat_message * list history_message * world))
  : list history_message :=
  flat_map (λ '(model_response, tool_outputs, _),
              AssistantToolCalls model_response :: tool_outputs) rounds.

Definition store_after (w : world)
    (rounds : list (chat_message * list history_message * world)) : world :=
  foldl (λ _ round, round.2) w rounds.

Definition ticket_lookup_request : tool_call :=
  {| call_id := "call_3";
     function :=
       {| name := "get_ticket_info";
          arguments := JSON (VDict [("ticket_id", VStr "SF-TEKI-0A1B2C")]) |} |}.

Definition requests_lookup : chat_message :=
  {| content := None; tool_calls := [ticket_lookup_request] |}.

Definition always_requests_tools : completion_service :=
  λ _ _, Completion requests_lookup.

Definition lookup_round : chat_message * list history_message * world :=
  (requests_lookup,
   [ToolMessage "call_3" "get_ticket_info" (not_found (VStr "SF-TEKI-0A1B2C"))],
   fresh_world).

Definition ticket_cancel_request : tool_call :=
  {| call_id := "call_4";
     function :=
       {| name := "cancel_ticket";
          arguments := JSON (VDict [("ticket_id", VStr "SF-TEKI-0A1B2C")]) |} |}.

Definition requests_cancel : chat_message :=
  {| content := None; tool_calls := [ticket_cancel_request] |}.

(** A Completion Service that requests a cancellation and whose second call
    times out. *)
Definition fails_on_second_call : completion_service :=
  λ i _, match i with
         | O => Completion requests_cancel
         | S _ => APIFailure "Request timed out."
         end.

Definition requests_incomplete_booking : completion_service :=
  λ _ _, Completion {| content := None; tool_calls := [incomplete_booking_request] |}.

(** ** More sample data *)

(** The store after the sample booking is repeated with the same uuid. *)
Definition sample_rebooking : tool_result * gmap string ticket :=
  book_ticket mock_oracle sample_hex "2025-03-05 18:40:00" sample_booking.2
    (VStr "Tehran") (VStr "Kish") (VStr "1404/01/15")
    (VStr "Reza Karimi") (VStr "0087654321").

(** An oracle whose collection holds one policy paragraph. *)
Definition sample_policy : string :=
  "Tickets cancelled more than 24 hours before departure are refunded at 70 percent.".

Definition loaded_oracle : oracle :=
  {| str_upper := upper;
     str_lower := lower;
     py_print := utf8_stdout;
     uuid4_hex := λ _, sample_hex;
     strftime_now := λ _, "2025-03-01 09:15:00";
     collection_count := 1;
     collection_query := λ _, Ok (Some [[sample_policy]]);
     json_completion := λ _ _, Raise (ServiceError "connection refused") |}.

(** ** Tool schemas (tools.py) *)

(** A schema dict: its [name] and [description], and under [parameters]
    the [type], the [properties] (each with a [type] and a [description])
    and the [required] names. *)
Record property_schema := { property_type : string; property_description : string }.

Record parameters_schema := {
  schema_type : string;
  properties : list (string * property_schema);
  required : list string
}.

Record tool_schema := {
  schema_name : string;
  schema_description : string;
  schema_parameters : parameters_schema
}.

Definition string_property (description : string) : property_schema :=
  {| property_type := "string"; property_description := description |}.

Definition get_book_ticket_schema : tool_schema :=
  {| schema_name := "book_ticket";
     schema_description := "Books a ticket in the simulated Safar Travel system. Required: Origin, Destination (Iran-only), Date, Name, National ID (کد ملی).";
     schema_parameters :=
       {| schema_type := "object";
          properties :=
            [("origin_city", string_property "The city of departure (e.g., تهران, مشهد).");
             ("destination_city", string_property "The destination city (e.g., کیش, شیراز).");
             ("travel_date", string_property "The date of travel in YYYY-MM-DD format (Gregorian) or Persian date (e.g., 1403/05/10).");
             ("passenger_name", string_property "The full name of the passenger.");
             ("national_id", string_property "The 10-digit Iranian National ID (کد ملی).")];
          required := ["origin_city"; "destination_city"; "travel_date";
                       "passenger_name"; "national_id"] |} |}.

Definition get_cancel_ticket_schema : tool_schema :=
  {| schema_name := "cancel_ticket";
     schema_description := "Cancels an existing ticket reservation using the ticket ID.";
     schema_parameters :=
       {| schema_type := "object";
          properties :=
            [("ticket_id", string_property "The unique Safar Travel ticket ID (e.g., SF-TEKRQ-AB12C3).")];
          required := ["ticket_id"] |} |}.

Definition get_ticket_info_schema : tool_schema :=
  {| schema_name := "get_ticket_info";
     schema_description := "Retrieves detailed information about an existing ticket using the ticket ID.";
     schema_parameters :=
       {| schema_type := "object";
          properties := [("ticket_id", string_property "The unique Safar Travel ticket ID.")];
          required := ["ticket_id"] |} |}.

Definition get_lookup_policy_schema : tool_schema :=
  {| schema_name := "lookup_policy";
     schema_description := "Performs a search on the policy database for company policies, FAQs, or rules.";
     schema_parameters :=
       {| schema_type := "object";
          properties :=
            [("query", string_property "The user's question or topic to search for (e.g., 'قوانین استرداد', 'حداکثر بار مجاز').")];
          required := ["query"] |} |}.

Definition get_search_destinations_schema : tool_schema :=
  {| schema_name := "search_destinations";
     schema_description := "Provides travel destination suggestions exclusively for Iranian domestic cities based on user preferences.";
     schema_parameters :=
       {| schema_type := "object";
          properties :=
            [("user_preferences", string_property "A description of what the user is looking for (e.g., 'یک شهر گرم با آثار تاریخی زیاد', 'مکانی برای اسکی').")];
          required := ["user_preferences"] |} |}.

(** [SafarTools.get_tool_schemas] *)
Definition get_tool_schemas : list tool_schema :=
  [get_book_ticket_schema; get_cancel_ticket_schema; get_ticket_info_schema;
   get_lookup_policy_schema; get_search_destinations_schema].

(** The [openai_tools_specs] of [AgentManager.__init__]: each schema under
    the key [function] of a dict whose [type] is [function]. *)
Definition openai_tools_specs : list (string * tool_schema) :=
  map (λ func_schema, ("function", func_schema)) get_tool_schemas.

(** A [book_ticket] request that follows the schema. *)
Definition complete_booking_request : tool_call :=
  {| call_id := "call_5";
     function :=
       {| name := "book_ticket";
          arguments :=
            JSON (VDict [("national_id", VStr "0012345678");
                         ("origin_city", VStr "Tehran");
                         ("destination_city", VStr "Kish");
                         ("travel_date", VStr "1403/12/20");
                         ("passenger_name", VStr "Sara Ahmadi")]) |} |}.

(** A [cancel_ticket] request with an argument the method does not have. *)
Definition overfull_cancel_request : tool_call :=
  {| call_id := "call_6";
     function :=
       {| name := "cancel_ticket";
          arguments :=
            JSON (VDict [("ticket_id", VStr "SF-TEKI-0A1B2C");
                         ("reason", VStr "change of plans")]) |} |}.

(** More mock Completion Services: one that asks for a ticket lookup and
    then answers, one that answers with an empty message, and one that
    behaves as [always_requests_tools] for the first five requests only. *)
Definition looks_up_then_answers : completion_service :=
  λ i _, match i with
         | O => Completion requests_lookup
         | S _ => Completion {| content := Some "I could not find that ticket.";
                                tool_calls := [] |}
         end.

Definition answers_nothing : completion_service :=
  λ _ _, Completion {| content := Some ""; tool_calls := [] |}.


Definition fails_at_once : completion_service :=
  λ _ _, APIFailure "Connection error.".

Definition books_then_loses_argument : completion_service :=
  λ _ _, Completion {| content := None;
                       tool_calls := [complete_booking_request;
                                      incomplete_booking_request] |}.

(** A session that already holds the sample ticket. *)
Definition session_with_ticket : session :=
  {| history := [SystemMessage "You are the AI Customer Service Agent for Safar Travel."];
     outside := {| TICKET_DB := sample_booking.2; clock := 1 |} |}.

(** ** The policy corpus loader (tools.py) *)

(** The loader cuts and strips a text character by character, so a text is
    here the list of the code points of a [str]. *)
Definition text := list N.

(** The text of an ASCII literal. *)
Definition codes (s : string) : text := N_of_ascii <$> list_ascii_of_string s.

(** The characters [str.strip] removes, those [str.isspace] accepts: tab to
    carriage return, the four separators, the space, NEL, the no-break
    space, the Ogham space mark, the spaces U+2000 to U+200A, the line and
    paragraph separators, the narrow no-break space, the medium mathematical
    space and the ideographic space. *)
Definition is_space (c : N) : bool :=
  ((9 <=? c) && (c <=? 13) || (28 <=? c) && (c <=? 32)
   || (c =? 133) || (c =? 160) || (c =? 5760)
   || (8192 <=? c) && (c <=? 8202) || (c =? 8232) || (c =? 8233)
   || (c =? 8239) || (c =? 8287) || (c =? 12288))%N.

Fixpoint lstrip (s : text) : text :=
  match s with
  | [] => []
  | c :: s' => if is_space c then lstrip s' else s
  end.

Fixpoint rstrip (s : text) : text :=
  match s with
  | [] => []
  | c :: s' =>
      match rstrip s' with
      | [] => if is_space c then [] else [c]
      | t => c :: t
      end
  end.

(** [s.strip()] *)
Definition strip (s : text) : text := rstrip (lstrip s).

(** [s.split(sep)] for the two-character separator of a blank line: the
    text is cut at each occurrence found from the left, and there is always
    at least one part. *)
Fixpoint split_blank_lines (s : text) : list text :=
  match s with
  | [] => [[]]
  | c :: rest =>
      let uncut :=
        match split_blank_lines rest with
        | part :: parts => (c :: part) :: parts
        | [] => [[c]]
        end in
      match rest with
      | c' :: rest' =>
          if ((c =? 10) && (c' =? 10))%N then [] :: split_blank_lines rest'
          else uncut
      | [] => uncut
      end
  end.

(** What [open] and [read] do with the data file. *)
Inductive read_outcome :=
| FileNotFound
| ReadFails
| FileContent (content : text).

(** [RAGTool._load_data].  The collection is the list of its ids and
    documents; [add_raises] tells whether [collection.add] raises.  The
    method returns nothing: what it leaves is the collection, which no
    statement after [collection.add] changes, so the embedding gives the
    collection, whether the method returns or one of its [print]s raises. *)
Definition _load_data (add_raises : bool) (collection : list (string * text))
    (file : read_outcome) : list (string * text) :=
  if (0 <? length collection)%nat then collection
  else
    match file with
    | FileNotFound => collection
    | ReadFails => collection
    | FileContent content =>
        let documents :=
          filter (λ doc, doc ≠ []) (strip <$> split_blank_lines content) in
        match documents with
        | [] => collection
        | _ :: _ =>
            let ids := (λ i : nat, "doc_" +:+ pretty i) <$> seq 0 (length documents) in
            if add_raises then collection
            else collection ++ zip ids documents
        end
    end.

(** A policy file with two paragraphs, blank lines and stray spaces. *)
Definition sample_policy_file : text :=
  [10; 10]%N ++ codes "  Refunds are 70 percent of the price. " ++
  [10; 10; 10]%N ++ codes "Baggage allowance is 20 kg." ++ [10]%N.

(** Whether a text holds a blank line (two newlines in a row), and whether
    it ends with a newline. *)
Fixpoint has_blank_line (s : text) : bool :=
  match s with
  | [] => false
  | c :: rest =>
      match rest with
      | [] => false
      | c' :: _ => ((c =? 10) && (c' =? 10))%N || has_blank_line rest
      end
  end.

Fixpoint ends_with_newline (s : text) : bool :=
  match s with
  | [] => false
  | c :: rest =>
      match rest with
      | [] => (c =? 10)%N
      | _ :: _ => ends_with_newline rest
      end
  end.

(** A paragraph as a policy file is meant to hold them: not empty, no white
    space at either end, no blank line inside. *)
Definition paragraph (p : text) : Prop :=
  p ≠ [] ∧ strip p = p ∧ has_blank_line p = false.

Definition blank_line : text := [10; 10]%N.

(** [sep.join(parts)] *)
Fixpoint join (sep : text) (parts : list text) : text :=
  match parts with
  | [] => []
  | [p] => p
  | p :: parts' => p ++ sep ++ join sep parts'
  end.

(** The third branch of [split_blank_lines]: the character goes in front
    of the first part. *)
Definition cons_head (c : N) (parts : list text) : list text :=
  match parts with
  | part :: parts' => (c :: part) :: parts'
  | [] => [[c]]
  end.

(** Two paragraphs in English, and the Persian paragraph [salam]
    (U+0633 U+0644 U+0627 U+0645). *)
Definition sample_paragraphs : list text :=
  [codes "Refunds are 70 percent of the price." ++ [10]%N ++ codes "Penalties are 30 percent.";
   codes "Baggage allowance is 20 kg.";
   [1587; 1604; 1575; 1605]%N].

(** ** Sessions over several turns (manager.py, chainlit_app.py) *)

(** [AgentManager.__init__]: the history starts as the system prompt
    alone; [w] is the state the tools share when the agent is made. *)
Definition new_agent (system_prompt : string) (w : world) : session :=
  {| history := [SystemMessage system_prompt]; outside := w |}.

(** The session after [on_message] has passed a series of user messages
    to [process_message] of the same agent.  Each turn comes with what the
    Completion Service does during it; [on_message] catches an exception of
    the turn, so the agent lives on in the state the turn has left. *)
Definition conversation (O : oracle) (s : session)
    (turns : list (completion_service * string)) : session :=
  foldl (λ s turn, (process_message turn.1 O s turn.2).2) s turns.

Definition sample_conversation : list (completion_service * string) :=
  [(books_then_loses_argument, "Book Tehran to Kish for Sara Ahmadi on 1403/12/20");
   (fails_on_second_call, "Please cancel ticket SF-TEKI-0A1B2C");
   (answers_at_once, "Is my ticket confirmed?")].

(** ** The ways through the ticket tools *)

(** The four ways through [book_ticket]. *)
Inductive book_ticket_case (O : oracle) (hex now : string) (db : gmap string ticket)
    (o d date p nid : pyval) : tool_result * gmap string ticket → Prop :=
| book_missing :
    forallb truthy [o; d; date; p; nid] = false →
    book_ticket_case O hex now db o d date p nid (missing_information, db)
| book_fails e :
    forallb truthy [o; d; date; p; nid] = true →
    ticket_data O hex now db o d date p nid = Raise e →
    book_ticket_case O hex now db o d date p nid (internal_error e, db)
| book_stored_unprinted tk e :
    forallb truthy [o; d; date; p; nid] = true →
    ticket_data O hex now db o d date p nid = Ok tk →
    py_print O (booked_line (ticket_id tk)) = Some e →
    book_ticket_case O hex now db o d date p nid
      (internal_error e, <[ticket_id tk := tk]> db)
| book_stored tk :
    forallb truthy [o; d; date; p; nid] = true →
    ticket_data O hex now db o d date p nid = Ok tk →
    py_print O (booked_line (ticket_id tk)) = None →
    book_ticket_case O hex now db o d date p nid
      (booked_result tk, <[ticket_id tk := tk]> db).

(** The ways through [cancel_ticket]. *)
Inductive cancel_ticket_case (O : oracle) (now : string) (db : gmap string ticket)
    (key : pyval) : pyresult tool_result * gmap string ticket → Prop :=
| cancel_unhashable :
    db_get db key = Raise TypeError →
    cancel_ticket_case O now db key (Raise TypeError, db)
| cancel_not_found :
    db_get db key = Ok None →
    cancel_ticket_case O now db key (Ok (not_found key), db)
| cancel_already id t :
    key = VStr id → db !! id = Some t → status t = CANCELLED →
    cancel_ticket_case O now db key (Ok (already_cancelled key), db)
| cancel_refund_fails id t e :
    key = VStr id → db !! id = Some t → status t = CONFIRMED →
    refund_and_penalty (price_irr t) = Raise e →
    cancel_ticket_case O now db key (Raise e, db)
| cancel_marked_unprinted id t refund penalty e :
    key = VStr id → db !! id = Some t → status t = CONFIRMED →
    refund_and_penalty (price_irr t) = Ok (refund, penalty) →
    py_print O (cancelled_line key) = Some e →
    cancel_ticket_case O now db key (Raise e, <[id := mark_cancelled now t]> db)
| cancel_marked id t refund penalty :
    key = VStr id → db !! id = Some t → status t = CONFIRMED →
    refund_and_penalty (price_irr t) = Ok (refund, penalty) →
    py_print O (cancelled_line key) = None →
    cancel_ticket_case O now db key
      (Ok (cancelled_result key refund penalty), <[id := mark_cancelled now t]> db).

(** ** Sample data with a lone surrogate *)

(** U+D83D, the first half of a surrogate pair, as [json.loads] gives it
    for an escape that is cut in two. *)
Definition lone_surrogate : string :=
  String "237" (String "160" (String "189" EmptyString)).

(** A booking whose origin starts with it, the ticket it stores and the id
    of that ticket. *)
Definition surrogate_booking : tool_result * gmap string ticket :=
  book_ticket mock_oracle sample_hex "2025-03-01 09:15:00" ∅
    (VStr (lone_surrogate +:+ "Tehran")) (VStr "Kish") (VStr "1403/12/20")
    (VStr "Sara Ahmadi") (VStr "0012345678").

Definition surrogate_ticket : ticket :=
  new_ticket mock_oracle sample_hex "2025-03-01 09:15:00" ∅
    (lone_surrogate +:+ "Tehran") "Kish"
    (VStr "1403/12/20") (VStr "Sara Ahmadi") (VStr "0012345678") "08:00".

Definition surrogate_ticket_id : string :=
  "SF-" +:+ lone_surrogate +:+ "TKI-0A1B2C".


(** A [cancel_ticket] request whose payload is an array nested too deep for
    [json.loads], which raises [RecursionError] on it. *)
Definition too_deep_request : tool_call :=
  {| call_id := "call_9";
     function :=
       {| name := "cancel_ticket";
          arguments := Unloadable "[[[[[[[[[[[[[[[[[[[[[[[[[[[[[[[[ ..." RecursionError |} |}.

(** A Completion Service that requests a ticket lookup four times and then
    a booking without [national_id]. *)
Definition loses_argument_in_fifth_round : completion_service :=
  λ i _, if (i <? 4)%nat then Completion requests_lookup
         else Completion {| content := None; tool_calls := [incomplete_booking_request] |}.

(** * Properties of the tool set *)

Lemma premium_price : py_mul_float (PInt 1500000) 1.5 = Ok 2250000%float.
Proof. reflexivity. Qed.

Lemma departure_slot_exists (n : nat) :
  ∃ departure, travel_times !! (n mod 3)%nat = Some departure.
Proof.
  apply lookup_lt_is_Some. change (length travel_times) with 3%nat.
  apply Nat.mod_upper_bound. done.
Qed.

(** The dict [book_ticket] builds: it is built exactly when the two cities
    are strings, and then it is [new_ticket]. *)
Lemma ticket_data_inv O hex now db o d date p nid tk :
  ticket_data O hex now db o d date p nid = Ok tk →
  ∃ os ds departure,
    o = VStr os ∧ d = VStr ds ∧
    travel_times !! (size db mod 3)%nat = Some departure ∧
    tk = new_ticket O hex now db os ds date p nid departure.
Proof.
  unfold ticket_data, _generate_ticket_id. intros Htry.
  destruct d as [| | | |ds| |]; try done.
  cbn [py_lower py_prefix_upper mbind pyresult_bind] in Htry.
  destruct (bool_decide (str_lower O ds ∈ ["kish"; "qeshm"])) eqn:Hprem;
    rewrite ?premium_price in Htry;
    cbn [mbind pyresult_bind] in Htry;
    (destruct o as [| | | |os| |]; try done);
    cbn [py_prefix_upper mbind pyresult_bind] in Htry;
    (destruct (travel_times !! _) as [dep|] eqn:Hdep; [|done]);
    injection Htry as <-;
    exists os, ds, dep; unfold new_ticket; rewrite Hprem; done.
Qed.

Lemma ticket_data_strings O hex now db os ds date p nid :
  ∃ departure,
    travel_times !! (size db mod 3)%nat = Some departure ∧
    ticket_data O hex now db (VStr os) (VStr ds) date p nid =
      Ok (new_ticket O hex now db os ds date p nid departure).
Proof.
  destruct (departure_slot_exists (size db)) as [dep Hdep].
  exists dep. split; [done|].
  unfold ticket_data, _generate_ticket_id, new_ticket.
  cbn [py_lower py_prefix_upper mbind pyresult_bind].
  destruct (bool_decide (str_lower O ds ∈ ["kish"; "qeshm"]));
    rewrite ?premium_price; cbn [mbind pyresult_bind]; rewrite Hdep; done.
Qed.

Lemma ticket_data_id O hex now db o d date p nid tk :
  ticket_data O hex now db o d date p nid = Ok tk →
  _generate_ticket_id O hex o d = Ok (ticket_id tk).
Proof.
  intros H. destruct (ticket_data_inv _ _ _ _ _ _ _ _ _ _ H)
    as (os & ds & dep & -> & -> & _ & ->).
  reflexivity.
Qed.

Lemma book_ticket_cases O hex now db o d date p nid :
  book_ticket_case O hex now db o d date p nid
    (book_ticket O hex now db o d date p nid).
Proof.
  unfold book_ticket.
  destruct (forallb truthy _) eqn:Hall; cbn [negb]; [|by apply book_missing].
  unfold book_ticket_try.
  destruct (ticket_data O hex now db o d date p nid) as [tk|e] eqn:Htk;
    [|by apply book_fails].
  destruct (py_print O (booked_line (ticket_id tk))) as [e|] eqn:Hp.
  - by eapply book_stored_unprinted.
  - by apply book_stored.
Qed.

Lemma book_ticket_success_inv O hex now db o d date p nid r db' :
  book_ticket O hex now db o d date p nid = (r, db') →
  result_status r = success →
  ∃ os ds departure,
    o = VStr os ∧ d = VStr ds ∧
    travel_times !! (size db mod 3)%nat = Some departure ∧
    let tk := new_ticket O hex now db os ds date p nid departure in
    fields r = Details tk ∧ db' = <[ticket_id tk := tk]> db ∧
    py_print O (booked_line (ticket_id tk)) = None.
Proof.
  intros Hb Hs.
  pose proof (book_ticket_cases O hex now db o d date p nid) as Hc.
  rewrite Hb in Hc. inversion Hc as [?|e ? Htk|tk e ? Htk Hp|tk ? Htk Hp]; subst;
    try discriminate Hs.
  destruct (ticket_data_inv _ _ _ _ _ _ _ _ _ _ Htk)
    as (os & ds & dep & -> & -> & Hdep & ->).
  by exists os, ds, dep.
Qed.

Lemma book_ticket_success O hex now db os ds date p nid :
  forallb truthy [VStr os; VStr ds; date; p; nid] = true →
  ∃ departure,
    travel_times !! (size db mod 3)%nat = Some departure ∧
    let tk := new_ticket O hex now db os ds date p nid departure in
    book_ticket O hex now db (VStr os) (VStr ds) date p nid =
      (match py_print O (booked_line (ticket_id tk)) with
       | None => booked_result tk
       | Some e => internal_error e
       end, <[ticket_id tk := tk]> db).
Proof.
  intros Hall.
  destruct (ticket_data_strings O hex now db os ds date p nid) as (dep & Hdep & Htk).
  exists dep. split; [done|].
  unfold book_ticket. rewrite Hall. cbn [negb].
  unfold book_ticket_try. rewrite Htk.
  cbn [ticket_id new_ticket].
  by destruct (py_print O _).
Qed.

Lemma db_get_Some db key id t :
  db_get db key = Ok (Some (id, t)) → key = VStr id ∧ db !! id = Some t.
Proof.
  destruct key; try done. cbn [db_get].
  destruct (db !! s) as [t0|] eqn:Hl; [|done].
  by intros [= <- <-].
Qed.

Lemma db_get_raises db key e : db_get db key = Raise e → e = TypeError.
Proof. destruct key; try done; by intros [= <-]. Qed.

Lemma cancel_ticket_cases O now db key :
  cancel_ticket_case O now db key (cancel_ticket O now db key).
Proof.
  unfold cancel_ticket.
  destruct (db_get db key) as [[[id t]|]|e] eqn:Hget.
  - destruct (db_get_Some _ _ _ _ Hget) as [Hkey Hl].
    destruct (status t) eqn:Hst.
    + destruct (refund_and_penalty (price_irr t)) as [[refund penalty]|e] eqn:Hr.
      * destruct (py_print O (cancelled_line key)) as [e|] eqn:Hp.
        -- by eapply cancel_marked_unprinted.
        -- by eapply cancel_marked.
      * by eapply cancel_refund_fails.
    + by eapply cancel_already.
  - by apply cancel_not_found.
  - pose proof (db_get_raises _ _ _ Hget) as ->. by apply cancel_unhashable.
Qed.

Lemma cancel_ticket_inv O now db key r db' :
  cancel_ticket O now db key = (Ok r, db') →
  (db' = db ∧ result_status r ≠ success) ∨
  (∃ id t refund penalty,
      key = VStr id ∧ db !! id = Some t ∧ status t = CONFIRMED ∧
      refund_and_penalty (price_irr t) = Ok (refund, penalty) ∧
      py_print O (cancelled_line key) = None ∧
      r = cancelled_result key refund penalty ∧
      db' = <[id := mark_cancelled now t]> db).
Proof.
  intros Hc. pose proof (cancel_ticket_cases O now db key) as Hcase.
  rewrite Hc in Hcase.
  inversion Hcase as [|?|id t ? ? ?|id t e|id t refund penalty e|id t refund penalty];
    subst; try by left.
  right. by exists id, t, refund, penalty.
Qed.

(** Whatever [cancel_ticket] does, each ticket of the store it leaves is a
    ticket of the store it was given, marked or not. *)
Lemma cancel_ticket_store O now db key id t' :
  (cancel_ticket O now db key).2 !! id = Some t' →
  ∃ t, db !! id = Some t ∧ (t' = t ∨ t' = mark_cancelled now t).
Proof.
  pose proof (cancel_ticket_cases O now db key) as Hcase.
  destruct (cancel_ticket O now db key) as [r db'].
  cbn [snd].
  inversion Hcase as [|?|id0 t ? ? ?|id0 t e|id0 t refund penalty e Hk Hl
                      |id0 t refund penalty Hk Hl]; subst; eauto;
    intros Hl'; rewrite lookup_insert in Hl'; case_decide; simplify_eq; eauto.
Qed.

Lemma book_ticket_store O hex now db o d date p nid id t :
  (book_ticket O hex now db o d date p nid).2 !! id = Some t →
  db !! id = Some t ∨
  ∃ os ds departure,
    o = VStr os ∧ d = VStr ds ∧
    forallb truthy [o; d; date; p; nid] = true ∧
    travel_times !! (size db mod 3)%nat = Some departure ∧
    t = new_ticket O hex now db os ds date p nid departure ∧ id = ticket_id t.
Proof.
  pose proof (book_ticket_cases O hex now db o d date p nid) as Hcase.
  destruct (book_ticket O hex now db o d date p nid) as [r db'].
  cbn [snd].
  inversion Hcase as [?|e ? Htk|tk e Hall Htk Hp|tk Hall Htk Hp]; subst; eauto;
    intros Hl; rewrite lookup_insert in Hl; case_decide; simplify_eq; eauto;
    right; destruct (ticket_data_inv _ _ _ _ _ _ _ _ _ _ Htk)
      as (os & ds & dep & -> & -> & Hdep & ->); by exists os, ds, dep.
Qed.

Lemma reachable_prices db :
  reachable db → ∀ id t, db !! id = Some t → booked_price t.
Proof.
  induction 1 as [|O hex now db o d date p nid Hreach IH|O now db key Hreach IH];
    intros id t Hl.
  - by rewrite lookup_empty in Hl.
  - destruct (book_ticket_store _ _ _ _ _ _ _ _ _ _ _ Hl)
      as [Hl0|(os & ds & dep & _ & _ & _ & _ & -> & _)]; [eauto|].
    unfold booked_price, new_ticket. cbn [price_irr].
    destruct (bool_decide _); auto.
  - destruct (cancel_ticket_store _ _ _ _ _ _ Hl) as (t0 & Hl0 & [->| ->]).
    + eauto.
    + unfold booked_price. cbn [price_irr mark_cancelled]. eapply IH, Hl0.
Qed.

Lemma refund_of_base_price :
  refund_and_penalty (PInt 1500000) = Ok (1050000, PInt 450000).
Proof. reflexivity. Qed.

Lemma refund_of_premium_price :
  refund_and_penalty (PFloat 2250000) = Ok (1575000, PFloat 675000).
Proof. reflexivity. Qed.

Lemma sample_booking_eq :
  sample_booking = (booked_result sample_ticket, {[ "SF-TEKI-0A1B2C" := sample_ticket ]}).
Proof. reflexivity. Qed.

Lemma sample_store_reachable : reachable sample_booking.2.
Proof. apply reachable_book, reachable_empty. Qed.

(** C4: cancelling a ticket whose status is CONFIRMED, in a store the
    program can reach, marks the stored ticket CANCELLED and then prints a
    debug line; when that [print] raises, the exception leaves
    [cancel_ticket] and no result is returned.  The refund and the penalty
    have been worked out by then (the refund is round(price * 0.70)), and
    the ticket stays cancelled. *)
Theorem cancel_confirmed_print_raises O now db id t e :
  reachable db → db !! id = Some t → status t = CONFIRMED →
  py_print O (cancelled_line (VStr id)) = Some e →
  cancel_ticket O now db (VStr id) = (Raise e, <[id := mark_cancelled now t]> db) ∧
  status <$> (cancel_ticket O now db (VStr id)).2 !! id = Some CANCELLED.
Proof.
  intros Hreach Hl Hst Hp.
  assert (cancel_ticket O now db (VStr id)
          = (Raise e, <[id := mark_cancelled now t]> db)) as ->.
  { unfold cancel_ticket. cbn [db_get]. rewrite Hl.
    cbn [fmap option_fmap option_map]. rewrite Hst.
    destruct (reachable_prices db Hreach id t Hl) as [-> | ->];
      rewrite ?refund_of_base_price, ?refund_of_premium_price, Hp; done. }
  split; [done|]. cbn [snd]. by rewrite lookup_insert_eq.
Qed.

Lemma cancel_confirmed_print_raises_witness :
  result_status surrogate_booking.1 = error ∧
  reachable surrogate_booking.2 ∧
  surrogate_booking.2 !! surrogate_ticket_id = Some surrogate_ticket ∧
  status surrogate_ticket = CONFIRMED ∧
  py_print mock_oracle (cancelled_line (VStr surrogate_ticket_id))
    = Some UnicodeEncodeError ∧
  cancel_ticket mock_oracle "2025-03-02 10:00:00" surrogate_booking.2
      (VStr surrogate_ticket_id)
    = (Raise UnicodeEncodeError,
       <[surrogate_ticket_id := mark_cancelled "2025-03-02 10:00:00" surrogate_ticket]>
         surrogate_booking.2) ∧
  status <$> (cancel_ticket mock_oracle "2025-03-02 10:00:00" surrogate_booking.2
                (VStr surrogate_ticket_id)).2 !! surrogate_ticket_id = Some CANCELLED.
Proof.
  split; [reflexivity|].
  assert (reachable surrogate_booking.2) as Hreach
    by apply reachable_book, reachable_empty.
  split; [exact Hreach|]. split; [reflexivity|]. split; [reflexivity|].
  split; [reflexivity|].
  apply (cancel_confirmed_print_raises mock_oracle "2025-03-02 10:00:00"
           surrogate_booking.2 surrogate_ticket_id surrogate_ticket UnicodeEncodeError);
    [exact Hreach|reflexivity|reflexivity|reflexivity].
Defined.

(** X10: cancelling a ticket whose status is CONFIRMED, in a store the
    program can reach, marks the stored ticket CANCELLED; the refund is
    round(price * 0.70) and the penalty is the price minus the refund; and
    when the debug line is printed the result is a success that carries the
    refund, with the penalty in its message. *)
Theorem cancel_confirmed_refund O now db id t :
  reachable db → db !! id = Some t → status t = CONFIRMED →
  ∃ refund penalty,
    refund = py_round (num_value (price_irr t) * (70 # 100)) ∧
    (num_value penalty == num_value (price_irr t) - inject_Z refund)%Q ∧
    status <$> (cancel_ticket O now db (VStr id)).2 !! id = Some CANCELLED ∧
    (py_print O (cancelled_line (VStr id)) = None →
     ∃ r, cancel_ticket O now db (VStr id)
            = (Ok r, <[id := mark_cancelled now t]> db) ∧
          result_status r = success ∧
          fields r = Refund (VStr id) refund ∧
          FmtThousands penalty ∈ message r).
Proof.
  intros Hreach Hl Hst.
  assert (∃ refund penalty,
            refund_and_penalty (price_irr t) = Ok (refund, penalty) ∧
            refund = py_round (num_value (price_irr t) * (70 # 100)) ∧
            (num_value penalty == num_value (price_irr t) - inject_Z refund)%Q)
    as (refund & penalty & Hr & Hround & Hval).
  { destruct (reachable_prices db Hreach id t Hl) as [-> | ->].
    - by exists 1050000, (PInt 450000).
    - by exists 1575000, (PFloat 675000). }
  exists refund, penalty.
  assert (cancel_ticket O now db (VStr id) =
            (match py_print O (cancelled_line (VStr id)) with
             | None => Ok (cancelled_result (VStr id) refund penalty)
             | Some e => Raise e
             end, <[id := mark_cancelled now t]> db)) as Hc.
  { unfold cancel_ticket. cbn [db_get]. rewrite Hl.
    cbn [fmap option_fmap option_map]. rewrite Hst, Hr.
    by destruct (py_print O _). }
  split; [done|]. split; [done|].
  split; [rewrite Hc; cbn [snd]; by rewrite lookup_insert_eq|].
  intros Hp. rewrite Hc, Hp. eexists. split; [reflexivity|].
  split; [done|]. split; [done|].
  unfold cancelled_result. cbn [message].
  rewrite !elem_of_cons. auto 10.
Qed.

Lemma cancel_confirmed_refund_witness :
  ∃ refund penalty,
    refund = py_round (num_value (price_irr sample_ticket) * (70 # 100)) ∧
    (num_value penalty == num_value (price_irr sample_ticket) - inject_Z refund)%Q ∧
    status <$> (cancel_ticket mock_oracle "2025-03-02 10:00:00" sample_booking.2
                  (VStr "SF-TEKI-0A1B2C")).2 !! "SF-TEKI-0A1B2C" = Some CANCELLED ∧
    (py_print mock_oracle (cancelled_line (VStr "SF-TEKI-0A1B2C")) = None →
     ∃ r, cancel_ticket mock_oracle "2025-03-02 10:00:00" sample_booking.2
            (VStr "SF-TEKI-0A1B2C")
            = (Ok r, <["SF-TEKI-0A1B2C" := mark_cancelled "2025-03-02 10:00:00" sample_ticket]>
                       sample_booking.2) ∧
          result_status r = success ∧
          fields r = Refund (VStr "SF-TEKI-0A1B2C") refund ∧
          FmtThousands penalty ∈ message r).
Proof.
  apply (cancel_confirmed_refund mock_oracle "2025-03-02 10:00:00" sample_booking.2
           "SF-TEKI-0A1B2C" sample_ticket).
  - apply sample_store_reachable.
  - reflexivity.
  - reflexivity.
Defined.

(** C7: cancelling a ticket whose status is already CANCELLED returns a
    result with status info and leaves the whole store, the ticket
    included, as it was. *)
Theorem cancel_cancelled_is_idempotent O now db id t :
  db !! id = Some t → status t = CANCELLED →
  ∃ r, cancel_ticket O now db (VStr id) = (Ok r, db) ∧
       result_status r = info ∧ fields r = NoPayload.
Proof.
  intros Hl Hst. eexists. split.
  - unfold cancel_ticket. cbn [db_get]. rewrite Hl.
    cbn [fmap option_fmap option_map]. rewrite Hst. done.
  - done.
Qed.

Lemma cancel_cancelled_is_idempotent_witness :
  ∃ r, cancel_ticket mock_oracle "2025-03-03 11:00:00" sample_cancelled_store
         (VStr "SF-TEKI-0A1B2C") = (Ok r, sample_cancelled_store) ∧
       result_status r = info ∧ fields r = NoPayload.
Proof.
  apply (cancel_cancelled_is_idempotent mock_oracle "2025-03-03 11:00:00"
           sample_cancelled_store
           "SF-TEKI-0A1B2C" (mark_cancelled "2025-03-02 10:00:00" sample_ticket));
    reflexivity.
Defined.

(** C10: a successful [cancel_ticket] call changes only the status and the
    cancellation date of the targeted ticket; its other fields, every other
    ticket and the size of the store are unchanged. *)
Theorem cancel_ticket_frame O now db key r db' :
  cancel_ticket O now db key = (Ok r, db') → result_status r = success →
  ∃ id t t',
    key = VStr id ∧ db !! id = Some t ∧ db' !! id = Some t' ∧
    status t' = CANCELLED ∧ cancellation_date t' = Some now ∧
    ticket_id t' = ticket_id t ∧ origin t' = origin t ∧
    destination t' = destination t ∧ travel_date t' = travel_date t ∧
    departure_time t' = departure_time t ∧
    passenger_name t' = passenger_name t ∧ national_id t' = national_id t ∧
    price_irr t' = price_irr t ∧ booking_date t' = booking_date t ∧
    (∀ id', id' ≠ id → db' !! id' = db !! id') ∧
    size db' = size db.
Proof.
  intros Hc Hs.
  destruct (cancel_ticket_inv _ _ _ _ _ _ Hc)
    as [[_ Hne]|(id & t & refund & penalty & -> & Hl & _ & _ & _ & _ & ->)];
    [done|].
  exists id, t, (mark_cancelled now t).
  split; [done|]. split; [done|]. split; [apply lookup_insert_eq|].
  repeat (split; [reflexivity|]).
  split.
  - intros id' Hne. by apply lookup_insert_ne.
  - by eapply map_size_insert_Some.
Qed.

Lemma cancel_ticket_frame_witness :
  cancel_ticket mock_oracle "2025-03-02 10:00:00" sample_booking.2
      (VStr "SF-TEKI-0A1B2C")
    = sample_cancellation ∧
  (∃ r, sample_cancellation.1 = Ok r ∧ result_status r = success) ∧
  ∃ id t t',
    VStr "SF-TEKI-0A1B2C" = VStr id ∧ sample_booking.2 !! id = Some t ∧
    sample_cancellation.2 !! id = Some t' ∧
    status t' = CANCELLED ∧ cancellation_date t' = Some "2025-03-02 10:00:00" ∧
    ticket_id t' = ticket_id t ∧ origin t' = origin t ∧
    destination t' = destination t ∧ travel_date t' = travel_date t ∧
    departure_time t' = departure_time t ∧
    passenger_name t' = passenger_name t ∧ national_id t' = national_id t ∧
    price_irr t' = price_irr t ∧ booking_date t' = booking_date t ∧
    (∀ id', id' ≠ id → sample_cancellation.2 !! id' = sample_booking.2 !! id') ∧
    size sample_cancellation.2 = size sample_booking.2.
Proof.
  split; [reflexivity|]. split; [by eexists|].
  apply (cancel_ticket_frame mock_oracle "2025-03-02 10:00:00" sample_booking.2
           (VStr "SF-TEKI-0A1B2C")
           (cancelled_result (VStr "SF-TEKI-0A1B2C") 1575000 (PFloat 675000))
           sample_cancellation.2);
    reflexivity.
Defined.

(** C8: [get_ticket_info] on an id that is not in the store returns status
    error; on the id of a ticket [book_ticket] has just stored it returns
    that record: origin, destination, travel date, passenger name and
    national id are the request's, and id, price, departure time, status
    and booking date are the generated ones. *)
Theorem get_ticket_info_round_trip O hex now db o d date p nid r db' :
  book_ticket O hex now db o d date p nid = (r, db') →
  result_status r = success →
  (∀ id, db !! id = None →
     ∃ e, get_ticket_info db (VStr id) = Ok e ∧ result_status e = error) ∧
  ∃ tk,
    fields r = Details tk ∧
    get_ticket_info db' (VStr (ticket_id tk)) =
      Ok {| result_status := success;
            message := [Lit "Ticket information retrieved."];
            fields := Details tk |} ∧
    origin tk = o ∧ destination tk = d ∧ travel_date tk = date ∧
    passenger_name tk = p ∧ national_id tk = nid ∧
    _generate_ticket_id O hex o d = Ok (ticket_id tk) ∧
    travel_times !! (size db mod 3)%nat = Some (departure_time tk) ∧
    booked_price tk ∧ status tk = CONFIRMED ∧ booking_date tk = now ∧
    cancellation_date tk = None.
Proof.
  intros Hb Hs. split.
  - intros id Hl. eexists. split.
    + unfold get_ticket_info. cbn [db_get]. rewrite Hl. reflexivity.
    + reflexivity.
  - destruct (book_ticket_success_inv _ _ _ _ _ _ _ _ _ _ _ Hb Hs)
      as (os & ds & dep & -> & -> & Hdep & Hf & -> & _).
    eexists. split; [exact Hf|].
    split.
    { unfold get_ticket_info. cbn [db_get]. rewrite lookup_insert_eq. reflexivity. }
    repeat (split; [reflexivity || exact Hdep|]).
    split; [|done].
    unfold booked_price, new_ticket. cbn [price_irr].
    destruct (bool_decide _); auto.
Qed.

Lemma get_ticket_info_round_trip_witness :
  (∀ id, (∅ : gmap string ticket) !! id = None →
     ∃ e, get_ticket_info ∅ (VStr id) = Ok e ∧ result_status e = error) ∧
  ∃ tk,
    fields sample_booking.1 = Details tk ∧
    get_ticket_info sample_booking.2 (VStr (ticket_id tk)) =
      Ok {| result_status := success;
            message := [Lit "Ticket information retrieved."];
            fields := Details tk |} ∧
    origin tk = VStr "Tehran" ∧ destination tk = VStr "Kish" ∧
    travel_date tk = VStr "1403/12/20" ∧
    passenger_name tk = VStr "Sara Ahmadi" ∧ national_id tk = VStr "0012345678" ∧
    _generate_ticket_id mock_oracle sample_hex (VStr "Tehran") (VStr "Kish")
      = Ok (ticket_id tk) ∧
    travel_times !! (size (∅ : gmap string ticket) mod 3)%nat = Some (departure_time tk) ∧
    booked_price tk ∧ status tk = CONFIRMED ∧
    booking_date tk = "2025-03-01 09:15:00" ∧ cancellation_date tk = None.
Proof.
  apply (get_ticket_info_round_trip mock_oracle sample_hex "2025-03-01 09:15:00" ∅
           (VStr "Tehran") (VStr "Kish") (VStr "1403/12/20")
           (VStr "Sara Ahmadi") (VStr "0012345678")
           sample_booking.1 sample_booking.2); reflexivity.
Defined.




Example second_booking_takes_second_slot :
  (book_ticket mock_oracle "ffeeddccbbaa99887766554433221100" "2025-03-01 09:20:00"
     sample_booking.2 (VStr "Shiraz") (VStr "Mashhad") (VStr "1403/12/21")
     (VStr "Reza Karimi") (VStr "0087654321")).1.(fields)
  = Details
      (new_ticket mock_oracle "ffeeddccbbaa99887766554433221100" "2025-03-01 09:20:00"
         sample_booking.2 "Shiraz" "Mashhad" (VStr "1403/12/21")
         (VStr "Reza Karimi") (VStr "0087654321") "14:30").
Proof. reflexivity. Qed.

(** * Properties of tool dispatch *)

Lemma func_map_names (n : string) :
  is_Some (func_map !! n) ↔
  n ∈ ["book_ticket"; "cancel_ticket"; "get_ticket_info"; "lookup_policy";
       "search_destinations"].
Proof.
  unfold func_map, get_tool_callables. cbn [foldl __name__].
  rewrite !lookup_insert_is_Some, lookup_empty, is_Some_alt.
  rewrite !elem_of_cons, elem_of_nil.
  intuition (subst; auto; try discriminate).
Qed.

(** A payload on which [json.loads] raises anything but [JSONDecodeError]:
    the exception leaves the dispatch. *)
Lemma dispatch_load_raises O w tc f e :
  func_map !! name (function tc) = Some f →
  json_loads (arguments (function tc)) = Raise e → e ≠ JSONDecodeError →
  _execute_tool_call O w tc = (Raise e, w).
Proof.
  intros Hf Hl He. unfold _execute_tool_call. rewrite Hf, Hl.
  by destruct e.
Qed.

(** C6, as the code has it: a request whose tool name is not registered gets
    a result with status error that names the function, whatever its
    payload; a request with a registered name whose payload [json.loads]
    rejects with [JSONDecodeError] gets a result with status error that
    reports the decode failure; neither raises, and neither touches the
    store. *)
Theorem dispatch_unknown_or_undecodable O w tc :
  func_map !! name (function tc) = None ∨
  json_loads (arguments (function tc)) = Raise JSONDecodeError →
  _execute_tool_call O w tc =
    (Ok (match func_map !! name (function tc) with
         | None => unknown_function (name (function tc))
         | Some _ => decode_error (name (function tc))
         end), w).
Proof.
  intros H. unfold _execute_tool_call.
  destruct (func_map !! name (function tc)) as [f|]; [|done].
  destruct H as [H|H]; [done|]. by rewrite H.
Qed.

Lemma dispatch_unknown_or_undecodable_witness :
  (func_map !! name (function undecodable_request) = None ∨
   json_loads (arguments (function undecodable_request)) = Raise JSONDecodeError) ∧
  _execute_tool_call mock_oracle fresh_world undecodable_request =
    (Ok (decode_error "cancel_ticket"), fresh_world).
Proof.
  split.
  - right. reflexivity.
  - apply (dispatch_unknown_or_undecodable mock_oracle fresh_world undecodable_request).
    right. reflexivity.
Defined.

(** Counterexamples to C6 as stated.  A request with an unregistered name
    and a payload that does not decode gets the result that names the
    unknown function, not one that describes the decode failure; and a
    payload nested too deep, on which [json.loads] raises [RecursionError],
    gets no result: the exception is raised to the caller. *)
Lemma unknown_name_hides_decode_failure :
  json_loads (arguments (function unknown_and_undecodable_request))
    = Raise JSONDecodeError ∧
  _execute_tool_call mock_oracle fresh_world unknown_and_undecodable_request =
    (Ok (unknown_function "refund_ticket"), fresh_world) ∧
  unknown_function "refund_ticket" ≠ decode_error "refund_ticket" ∧
  _execute_tool_call mock_oracle fresh_world too_deep_request =
    (Raise RecursionError, fresh_world).
Proof. repeat split. discriminate. Qed.

(** What the tools do on the failure conditions they handle themselves. *)

Lemma book_ticket_empty_field O hex now db o d date p nid :
  forallb truthy [o; d; date; p; nid] = false →
  ∃ r, book_ticket O hex now db o d date p nid = (r, db) ∧
       result_status r = error ∧ fields r = NoPayload.
Proof.
  intros H. unfold book_ticket. rewrite H. cbn [negb]. by eexists.
Qed.

Lemma book_ticket_status O hex now db o d date p nid :
  result_status (book_ticket O hex now db o d date p nid).1 = success ∨
  result_status (book_ticket O hex now db o d date p nid).1 = error.
Proof.
  destruct (book_ticket_cases O hex now db o d date p nid); auto.
Qed.

Lemma unknown_ticket_id O db now id :
  db !! id = None →
  cancel_ticket O now db (VStr id) = (Ok (not_found (VStr id)), db) ∧
  get_ticket_info db (VStr id) = Ok (not_found (VStr id)).
Proof.
  intros H. unfold cancel_ticket, get_ticket_info. cbn [db_get].
  rewrite H. done.
Qed.

Lemma lookup_policy_empty_corpus O query :
  collection_count O = 0%nat →
  ∃ r, lookup_policy O query = Ok r ∧ result_status r = error.
Proof.
  intros H. unfold lookup_policy. rewrite H. by eexists.
Qed.

(** * Properties of the orchestrator loop *)

Lemma set_history_twice s h h' :
  set_history (set_history s h) h' = set_history s h'.
Proof. reflexivity. Qed.

Lemma set_history_same s : set_history s (history s) = s.
Proof. by destruct s. Qed.

(** The tool outputs of a round answer the requested calls one for one, in
    request order, each tagged with the id and the name of its call. *)
Lemma run_tool_calls_outputs O calls : ∀ w tool_outputs w',
  run_tool_calls O w calls = (Ok tool_outputs, w') →
  Forall2 (λ tc out, ∃ tool_result,
             out = ToolMessage (call_id tc) (name (function tc)) tool_result)
          calls tool_outputs.
Proof.
  induction calls as [|tc calls IH]; intros w outs w'; cbn [run_tool_calls].
  - intros [= <- <-]. constructor.
  - destruct (_execute_tool_call O w tc) as [[res|e] w1]; [|done].
    destruct (run_tool_calls O w1 calls) as [[outs1|e] w2] eqn:Hrest; [|done].
    intros [= <- <-]. constructor; [by eexists|]. by eapply IH.
Qed.

(** C2: when the first completion of a turn carries non-empty text,
    [process_message] returns that text and the history grows by exactly two
    entries, the user message and then the assistant message with the
    text; the store is not touched. *)
Theorem first_iteration_text C O s user_message model_response text :
  C 0%nat (history s ++ [UserMessage user_message]) = Completion model_response →
  content model_response = Some text → text ≠ "" →
  process_message C O s user_message =
    (Returns text,
     {| history := history s ++ [UserMessage user_message; AssistantMessage text];
        outside := outside s |}) ∧
  length (history s ++ [UserMessage user_message; AssistantMessage text])
    = (length (history s) + 2)%nat.
Proof.
  intros HC Hcontent Htext. split.
  - unfold process_message. cbn [seq for_range set_history history outside].
    rewrite HC, Hcontent.
    destruct text as [|c text]; [done|]. cbn [if_content].
    by rewrite <- app_assoc.
  - rewrite length_app. reflexivity.
Qed.

Lemma first_iteration_text_witness :
  process_message answers_at_once mock_oracle new_session "Is my ticket confirmed?" =
    (Returns "Your ticket is confirmed.",
     {| history := history new_session ++
                   [UserMessage "Is my ticket confirmed?";
                    AssistantMessage "Your ticket is confirmed."];
        outside := outside new_session |}) ∧
  length (history new_session ++
          [UserMessage "Is my ticket confirmed?";
           AssistantMessage "Your ticket is confirmed."])
    = (length (history new_session) + 2)%nat.
Proof.
  apply (first_iteration_text answers_at_once mock_oracle new_session
           "Is my ticket confirmed?"
           {| content := Some "Your ticket is confirmed."; tool_calls := [] |}
           "Your ticket is confirmed.").
  - reflexivity.
  - reflexivity.
  - discriminate.
Defined.

(** ** Turns that exhaust the step budget *)

Lemma for_range_after_rounds C O rounds : ∀ i s range',
  tool_rounds C O i s rounds →
  for_range C O (seq i (length rounds) ++ range') s =
    for_range C O range'
      {| history := history s ++ exchanges rounds;
         outside := store_after (outside s) rounds |}.
Proof.
  induction rounds as [|[[r outs] w] rounds IH]; intros i s range'.
  - intros _. cbn. rewrite app_nil_r. by destruct s.
  - intros (HC & Hcontent & Hcalls & Hrun & Hrest).
    cbn [length seq app for_range]. rewrite HC, Hcontent.
    destruct (tool_calls r) as [|tc calls] eqn:Htc; [done|].
    rewrite Hrun, <- app_assoc. cbn [app].
    rewrite (IH _ _ _ Hrest). cbn [history outside].
    rewrite <- app_assoc. reflexivity.
Qed.

Lemma for_range_tool_rounds C O rounds i s :
  tool_rounds C O i s rounds →
  for_range C O (seq i (length rounds)) s =
    (Returns max_steps_msg,
     {| history := history s ++ exchanges rounds;
        outside := store_after (outside s) rounds |}).
Proof.
  intros H. rewrite <- (app_nil_r (seq i (length rounds))).
  by rewrite (for_range_after_rounds _ _ _ _ _ _ H).
Qed.

(** C3, with the condition the code needs: when each of the five
    iterations of a turn is a tool-call round in which every requested call
    is dispatched to a result, [process_message] returns the fixed
    maximum-steps message; the history is then the old history, the user
    message, and for each round in order the assistant's tool-call record
    followed by one tool result per requested call, and nothing is added or
    removed after the fifth round. *)
Theorem five_tool_rounds_exhaust_budget C O s user_message rounds :
  length rounds = 5%nat →
  tool_rounds C O 0 (set_history s (history s ++ [UserMessage user_message])) rounds →
  process_message C O s user_message =
    (Returns max_steps_msg,
     {| history := history s ++ UserMessage user_message :: exchanges rounds;
        outside := store_after (outside s) rounds |}) ∧
  Forall (λ '(model_response, tool_outputs, _),
            Forall2 (λ tc out, ∃ tool_result,
                       out = ToolMessage (call_id tc) (name (function tc)) tool_result)
                    (tool_calls model_response) tool_outputs) rounds.
Proof.
  intros Hlen Hrounds. split.
  - unfold process_message. rewrite <- Hlen.
    rewrite (for_range_tool_rounds _ _ _ _ _ Hrounds).
    cbn [set_history history outside]. by rewrite <- app_assoc.
  - clear Hlen. revert Hrounds.
    generalize (set_history s (history s ++ [UserMessage user_message])) as s0.
    generalize 0%nat as i.
    induction rounds as [|[[r outs] w] rounds IH]; intros i s0; [constructor|].
    intros (_ & _ & _ & Hrun & Hrest). constructor.
    + by eapply run_tool_calls_outputs.
    + by eapply IH.
Qed.

Lemma five_tool_rounds_exhaust_budget_witness :
  length (replicate 5 lookup_round) = 5%nat ∧
  tool_rounds always_requests_tools mock_oracle 0
    (set_history new_session (history new_session ++ [UserMessage "Where is my ticket?"]))
    (replicate 5 lookup_round) ∧
  process_message always_requests_tools mock_oracle new_session "Where is my ticket?" =
    (Returns max_steps_msg,
     {| history := history new_session ++
                   UserMessage "Where is my ticket?" :: exchanges (replicate 5 lookup_round);
        outside := store_after (outside new_session) (replicate 5 lookup_round) |}) ∧
  Forall (λ '(model_response, tool_outputs, _),
            Forall2 (λ tc out, ∃ tool_result,
                       out = ToolMessage (call_id tc) (name (function tc)) tool_result)
                    (tool_calls model_response) tool_outputs)
         (replicate 5 lookup_round).
Proof.
  assert (tool_rounds always_requests_tools mock_oracle 0
            (set_history new_session
               (history new_session ++ [UserMessage "Where is my ticket?"]))
            (replicate 5 lookup_round)) as Hrounds.
  { cbn [replicate tool_rounds lookup_round].
    repeat (split; [reflexivity || discriminate|]). exact I. }
  split; [reflexivity|]. split; [exact Hrounds|].
  apply (five_tool_rounds_exhaust_budget always_requests_tools mock_oracle
           new_session "Where is my ticket?" (replicate 5 lookup_round)).
  - reflexivity.
  - exact Hrounds.
Defined.

(** Counterexample to C3 as stated: the Completion Service returns
    tool-call requests on every iteration, with no text, no failure and no
    empty response; the request of the fifth iteration leaves an argument
    of [book_ticket] out, the call raises [TypeError], and the exception
    leaves [process_message]: no message is returned.  The history then
    holds 11 entries: the system prompt, the user message, four rounds of a
    tool-call record and a tool result, and the fifth tool-call record. *)
Lemma fifth_round_raises :
  (∀ i h, ∃ model_response,
     loses_argument_in_fifth_round i h = Completion model_response ∧
     if_content (content model_response) = None ∧
     tool_calls model_response ≠ []) ∧
  (process_message loses_argument_in_fifth_round mock_oracle new_session
     "Where is my ticket?").1 = Raises TypeError ∧
  length (history (process_message loses_argument_in_fifth_round mock_oracle
                     new_session "Where is my ticket?").2) = 11%nat.
Proof.
  split; [|split; reflexivity].
  intros i h. unfold loses_argument_in_fifth_round.
  destruct (i <? 4)%nat; eexists; (split; [reflexivity|]); split;
    reflexivity || discriminate.
Qed.

(** ** Turns in which the Completion Service call fails *)

(** The call fails at iteration [length rounds], after that many tool-call
    rounds: the apology is returned and the last entry of the history, as
    the rounds have left it, is removed. *)
Lemma api_failure_after_rounds C O s user_message rounds e :
  (length rounds < 5)%nat →
  tool_rounds C O 0 (set_history s (history s ++ [UserMessage user_message])) rounds →
  C (length rounds) (history s ++ UserMessage user_message :: exchanges rounds)
    = APIFailure e →
  process_message C O s user_message =
    (Returns (api_error_msg e),
     {| history := pop (history s ++ UserMessage user_message :: exchanges rounds);
        outside := store_after (outside s) rounds |}).
Proof.
  intros Hlen Hrounds HC. unfold process_message.
  replace 5%nat with (length rounds + S (4 - length rounds))%nat by lia.
  rewrite seq_app, (for_range_after_rounds _ _ _ _ _ _ Hrounds).
  cbn [seq for_range set_history history outside].
  rewrite <- app_assoc. cbn [app]. rewrite Nat.add_0_l, HC. reflexivity.
Qed.

(** X27: when the first request of a turn to the Completion Service fails,
    the apology is returned, the entry removed is the user message, and the
    session is as it was before the turn. *)
Lemma api_failure_first_iteration C O s user_message e :
  C 0%nat (history s ++ [UserMessage user_message]) = APIFailure e →
  process_message C O s user_message = (Returns (api_error_msg e), s).
Proof.
  intros HC.
  rewrite (api_failure_after_rounds C O s user_message [] e); [| cbn; lia | exact I | exact HC].
  cbn [exchanges flat_map store_after foldl]. unfold pop.
  rewrite removelast_last. by destruct s.
Qed.

(** After at least one tool-call round the entry removed is a tool result:
    the user message and the rounds' exchanges, but for the last output,
    stay in the history. *)
Lemma api_failure_later_iteration C O s user_message rounds e :
  rounds ≠ [] → (length rounds < 5)%nat →
  tool_rounds C O 0 (set_history s (history s ++ [UserMessage user_message])) rounds →
  C (length rounds) (history s ++ UserMessage user_message :: exchanges rounds)
    = APIFailure e →
  ∃ s', process_message C O s user_message = (Returns (api_error_msg e), s') ∧
        (length (history s) < length (history s'))%nat.
Proof.
  intros Hne Hlen Hrounds HC. eexists. split.
  - by apply api_failure_after_rounds.
  - cbn [history]. unfold pop.
    destruct rounds as [|[[r outs] w] rounds]; [done|].
    cbn [exchanges flat_map app].
    rewrite removelast_firstn_len, length_take, !length_app.
    cbn [length]. lia.
Qed.

(** C1, where the code departs from it: the service call fails on the second
    iteration, after one tool-call round.  The apology is returned, but the
    entry removed is the tool result, so the user message and the
    assistant's tool-call record stay: the history has 3 entries where it
    had 1 before the turn. *)
Theorem api_failure_on_second_iteration :
  process_message fails_on_second_call mock_oracle new_session
    "Please cancel ticket SF-TEKI-0A1B2C" =
    (Returns (api_error_msg "Request timed out."),
     {| history := history new_session ++
                   [UserMessage "Please cancel ticket SF-TEKI-0A1B2C";
                    AssistantToolCalls requests_cancel];
        outside := {| TICKET_DB := ∅; clock := 1 |} |}) ∧
  length (history new_session) = 1%nat ∧
  length (history new_session ++
          [UserMessage "Please cancel ticket SF-TEKI-0A1B2C";
           AssistantToolCalls requests_cancel]) = 3%nat.
Proof. repeat split. Qed.

(** ** Calls that leave an argument out *)

(** C5, where the code departs from it: dispatching a [book_ticket] request
    that leaves a required argument out raises [TypeError], no result is
    returned, and the exception leaves [process_message] too; the same
    request with the argument present and empty returns a result with
    status error and leaves the store empty. *)
Theorem dispatch_missing_argument_raises :
  _execute_tool_call mock_oracle fresh_world incomplete_booking_request
    = (Raise TypeError, fresh_world) ∧
  (process_message requests_incomplete_booking mock_oracle new_session
     "Book Tehran to Kish for Sara Ahmadi on 1403/12/20").1 = Raises TypeError ∧
  ∃ r, _execute_tool_call mock_oracle fresh_world empty_field_booking_request
         = (Ok r, {| TICKET_DB := ∅; clock := 1 |}) ∧
       result_status r = error.
Proof.
  split; [reflexivity|]. split; [reflexivity|]. eexists. split; reflexivity.
Qed.

(** * Further properties of the ticket tools *)

Lemma book_ticket_success_truthy O hex now db o d date p nid :
  (book_ticket O hex now db o d date p nid).1.(result_status) = success →
  forallb truthy [o; d; date; p; nid] = true.
Proof.
  unfold book_ticket.
  destruct (forallb truthy _); [done|]. cbn [negb fst result_status]. done.
Qed.

Lemma book_ticket_details_on_success O hex now db o d date p nid tk :
  (book_ticket O hex now db o d date p nid).1.(fields) = Details tk →
  (book_ticket O hex now db o d date p nid).1.(result_status) = success.
Proof.
  by destruct (book_ticket_cases O hex now db o d date p nid).
Qed.

Lemma generate_ticket_id_strings O hex o d id :
  _generate_ticket_id O hex o d = Ok id → ∃ os ds, o = VStr os ∧ d = VStr ds.
Proof.
  unfold _generate_ticket_id.
  destruct o as [| | | |os| |]; try done.
  destruct d as [| | | |ds| |]; try done. eauto.
Qed.

Lemma generate_ticket_id_ticket_data O hex now db o d date p nid id :
  _generate_ticket_id O hex o d = Ok id →
  ∃ tk, ticket_data O hex now db o d date p nid = Ok tk ∧ ticket_id tk = id.
Proof.
  intros Hid.
  destruct (generate_ticket_id_strings _ _ _ _ _ Hid) as (os & ds & -> & ->).
  destruct (ticket_data_strings O hex now db os ds date p nid) as (dep & _ & Htk).
  eexists. split; [exact Htk|]. by injection Hid as <-.
Qed.

(** X1: [book_ticket] succeeds exactly when its five arguments are all
    truthy, origin and destination are strings, so that an id is generated,
    and the debug line with that id is printed; nothing else about the
    arguments (date format, digits of the national id) is looked at. *)
Theorem book_ticket_succeeds_iff O hex now db o d date p nid :
  (book_ticket O hex now db o d date p nid).1.(result_status) = success ↔
  forallb truthy [o; d; date; p; nid] = true ∧
  ∃ os ds id,
    o = VStr os ∧ d = VStr ds ∧
    _generate_ticket_id O hex o d = Ok id ∧ py_print O (booked_line id) = None.
Proof.
  split.
  - intros Hs. split; [by eapply book_ticket_success_truthy|].
    destruct (book_ticket O hex now db o d date p nid) as [r db'] eqn:Hb.
    destruct (book_ticket_success_inv _ _ _ _ _ _ _ _ _ _ _ Hb Hs)
      as (os & ds & dep & -> & -> & _ & _ & _ & Hp).
    by exists os, ds, (ticket_id (new_ticket O hex now db os ds date p nid dep)).
  - intros (Hall & os & ds & id & -> & -> & Hid & Hp).
    destruct (book_ticket_success O hex now db os ds date p nid Hall)
      as (dep & _ & ->).
    injection Hid as <-. cbn [new_ticket ticket_id]. by rewrite Hp.
Qed.

(** X2: [book_ticket] touches at most the entry under the id it generates.
    A call that does not succeed leaves the store as it was, unless the
    ticket was stored and the debug line then failed to print: the result
    is an error and the ticket is in the store.  Every other id keeps its
    record, and the store neither shrinks nor grows by more than one
    ticket. *)
Theorem book_ticket_frame O hex now db o d date p nid :
  let r := (book_ticket O hex now db o d date p nid).1 in
  let db' := (book_ticket O hex now db o d date p nid).2 in
  (result_status r ≠ success →
     result_status r = error ∧ fields r = NoPayload ∧
     (db' = db ∨
      ∃ tk e, forallb truthy [o; d; date; p; nid] = true ∧
              ticket_data O hex now db o d date p nid = Ok tk ∧
              py_print O (booked_line (ticket_id tk)) = Some e ∧
              db' = <[ticket_id tk := tk]> db)) ∧
  (∀ id, _generate_ticket_id O hex o d ≠ Ok id → db' !! id = db !! id) ∧
  (size db ≤ size db' ≤ S (size db))%nat.
Proof.
  cbn zeta.
  destruct (book_ticket_cases O hex now db o d date p nid)
    as [Hall|e Hall Htk|tk e Hall Htk Hp|tk Hall Htk Hp]; cbn [fst snd].
  - split; [intros _; auto|]. split; [done|lia].
  - split; [intros _; auto|]. split; [done|lia].
  - split; [intros _; split; [done|]; split; [done|]; right; by exists tk, e|].
    split.
    + intros id Hne. rewrite lookup_insert_ne; [done|].
      intros <-. by apply Hne, ticket_data_id with now db date p nid.
    + rewrite map_size_insert. destruct (db !! _); cbn; lia.
  - split; [done|]. split.
    + intros id Hne. rewrite lookup_insert_ne; [done|].
      intros <-. by apply Hne, ticket_data_id with now db date p nid.
    + rewrite map_size_insert. destruct (db !! _); cbn; lia.
Qed.

(** The booking with a lone surrogate in the origin: the result is an
    error, and the ticket is in the store. *)
Example book_ticket_error_with_ticket_stored :
  result_status surrogate_booking.1 = error ∧
  surrogate_booking.2 !! surrogate_ticket_id = Some surrogate_ticket ∧
  size surrogate_booking.2 = 1%nat.
Proof. repeat split. Qed.

(** X3: when the id generated for a booking is already a key of the store,
    the earlier ticket is replaced by the new one and the store does not
    grow, so the next booking is given the same departure slot again; the
    result is a success that carries the new ticket when the debug line is
    printed, and an error when it is not. *)
Theorem book_ticket_reused_id O hex now db os ds date p nid id old :
  forallb truthy [VStr os; VStr ds; date; p; nid] = true →
  _generate_ticket_id O hex (VStr os) (VStr ds) = Ok id →
  db !! id = Some old →
  let r := (book_ticket O hex now db (VStr os) (VStr ds) date p nid).1 in
  let db' := (book_ticket O hex now db (VStr os) (VStr ds) date p nid).2 in
  (∃ tk, db' !! id = Some tk ∧
         status tk = CONFIRMED ∧ booking_date tk = now ∧
         passenger_name tk = p ∧ cancellation_date tk = None ∧
         match py_print O (booked_line id) with
         | None => result_status r = success ∧ fields r = Details tk
         | Some e => r = internal_error e
         end) ∧
  size db' = size db ∧
  travel_times !! (size db' mod 3)%nat = travel_times !! (size db mod 3)%nat.
Proof.
  intros Hall Hid Hold. cbn zeta.
  destruct (book_ticket_success O hex now db os ds date p nid Hall)
    as (dep & Hdep & ->). cbn [fst snd].
  injection Hid as <-.
  assert (size (<[ticket_id (new_ticket O hex now db os ds date p nid dep) :=
                  new_ticket O hex now db os ds date p nid dep]> db) = size db)
    as Hsize by by eapply map_size_insert_Some.
  split.
  - eexists. split; [apply lookup_insert_eq|].
    repeat (split; [reflexivity|]).
    cbn [new_ticket ticket_id]. by destruct (py_print O _).
  - split; [exact Hsize|]. by rewrite Hsize.
Qed.

Lemma book_ticket_reused_id_witness :
  forallb truthy [VStr "Tehran"; VStr "Kish"; VStr "1404/01/15";
                  VStr "Reza Karimi"; VStr "0087654321"] = true ∧
  _generate_ticket_id mock_oracle sample_hex (VStr "Tehran") (VStr "Kish")
    = Ok "SF-TEKI-0A1B2C" ∧
  sample_booking.2 !! "SF-TEKI-0A1B2C" = Some sample_ticket ∧
  (∃ tk, sample_rebooking.2 !! "SF-TEKI-0A1B2C" = Some tk ∧
         status tk = CONFIRMED ∧ booking_date tk = "2025-03-05 18:40:00" ∧
         passenger_name tk = VStr "Reza Karimi" ∧ cancellation_date tk = None ∧
         match py_print mock_oracle (booked_line "SF-TEKI-0A1B2C") with
         | None => result_status sample_rebooking.1 = success ∧
                   fields sample_rebooking.1 = Details tk
         | Some e => sample_rebooking.1 = internal_error e
         end) ∧
  size sample_rebooking.2 = size sample_booking.2 ∧
  travel_times !! (size sample_rebooking.2 mod 3)%nat
    = travel_times !! (size sample_booking.2 mod 3)%nat.
Proof.
  split; [reflexivity|]. split; [reflexivity|]. split; [reflexivity|].
  apply (book_ticket_reused_id mock_oracle sample_hex "2025-03-05 18:40:00"
           sample_booking.2
           "Tehran" "Kish" (VStr "1404/01/15") (VStr "Reza Karimi")
           (VStr "0087654321") "SF-TEKI-0A1B2C" sample_ticket); reflexivity.
Defined.

(** X4: a ticket that has just been booked can be cancelled in any store:
    the ticket is stored as cancelled at the time of the call, the refund
    is 1,575,000 for a premium destination and 1,050,000 otherwise, and
    the result is returned when the debug line of the cancellation is
    printed. *)
Theorem cancel_after_booking O hex now now' db o d date p nid tk :
  (book_ticket O hex now db o d date p nid).1.(fields) = Details tk →
  let db' := (book_ticket O hex now db o d date p nid).2 in
  ∃ ds r,
    d = VStr ds ∧
    cancel_ticket O now' db' (VStr (ticket_id tk)) =
      (match py_print O (cancelled_line (VStr (ticket_id tk))) with
       | None => Ok r
       | Some e => Raise e
       end, <[ticket_id tk := mark_cancelled now' tk]> db') ∧
    result_status r = success ∧
    fields r = Refund (VStr (ticket_id tk))
                 (if bool_decide (str_lower O ds ∈ ["kish"; "qeshm"])
                  then 1575000 else 1050000).
Proof.
  intros Hf. cbn zeta.
  pose proof (book_ticket_details_on_success _ _ _ _ _ _ _ _ _ _ Hf) as Hs.
  destruct (book_ticket O hex now db o d date p nid) as [r db'] eqn:Hb.
  cbn [fst snd] in *.
  destruct (book_ticket_success_inv _ _ _ _ _ _ _ _ _ _ _ Hb Hs)
    as (os & ds & dep & -> & -> & _ & Hf' & -> & _).
  rewrite Hf in Hf'. injection Hf' as ->.
  exists ds.
  unfold cancel_ticket. cbn [db_get]. rewrite lookup_insert_eq.
  cbn [fmap option_fmap option_map new_ticket status price_irr].
  destruct (bool_decide (str_lower O ds ∈ ["kish"; "qeshm"])).
  - rewrite refund_of_premium_price.
    eexists (cancelled_result _ 1575000 (PFloat 675000)).
    split; [done|]. split; [by destruct (py_print O _)|done].
  - rewrite refund_of_base_price.
    eexists (cancelled_result _ 1050000 (PInt 450000)).
    split; [done|]. split; [by destruct (py_print O _)|done].
Qed.

Lemma cancel_after_booking_witness :
  ∃ ds r,
    VStr "Kish" = VStr ds ∧
    cancel_ticket mock_oracle "2025-03-02 10:00:00" sample_booking.2
        (VStr (ticket_id sample_ticket)) =
      (match py_print mock_oracle (cancelled_line (VStr (ticket_id sample_ticket))) with
       | None => Ok r
       | Some e => Raise e
       end,
       <[ticket_id sample_ticket :=
           mark_cancelled "2025-03-02 10:00:00" sample_ticket]> sample_booking.2) ∧
    result_status r = success ∧
    fields r = Refund (VStr (ticket_id sample_ticket))
                 (if bool_decide (str_lower mock_oracle ds ∈ ["kish"; "qeshm"])
                  then 1575000 else 1050000).
Proof.
  apply (cancel_after_booking mock_oracle sample_hex "2025-03-01 09:15:00"
           "2025-03-02 10:00:00" ∅
           (VStr "Tehran") (VStr "Kish") (VStr "1403/12/20")
           (VStr "Sara Ahmadi") (VStr "0012345678") sample_ticket).
  reflexivity.
Defined.

(** X5: cancelling twice: after a successful cancellation, a second
    [cancel_ticket] on the same id returns status info, carries no refund
    and leaves the store as the first call left it. *)
Theorem cancel_twice O now1 now2 db key r1 db1 :
  cancel_ticket O now1 db key = (Ok r1, db1) → result_status r1 = success →
  ∃ r2, cancel_ticket O now2 db1 key = (Ok r2, db1) ∧
        result_status r2 = info ∧ fields r2 = NoPayload.
Proof.
  intros Hc Hs.
  destruct (cancel_ticket_inv _ _ _ _ _ _ Hc)
    as [[_ Hne]|(id & t & refund & penalty & -> & Hl & _ & _ & _ & _ & ->)];
    [done|].
  unfold cancel_ticket. cbn [db_get]. rewrite lookup_insert_eq.
  cbn [fmap option_fmap option_map mark_cancelled status].
  by eexists.
Qed.

Lemma cancel_twice_witness :
  cancel_ticket mock_oracle "2025-03-02 10:00:00" sample_booking.2
      (VStr "SF-TEKI-0A1B2C")
    = sample_cancellation ∧
  (∃ r1, sample_cancellation.1 = Ok r1 ∧ result_status r1 = success) ∧
  ∃ r2, cancel_ticket mock_oracle "2025-03-04 12:30:00" sample_cancellation.2
          (VStr "SF-TEKI-0A1B2C") = (Ok r2, sample_cancellation.2) ∧
        result_status r2 = info ∧ fields r2 = NoPayload.
Proof.
  split; [reflexivity|]. split; [by eexists|].
  apply (cancel_twice mock_oracle "2025-03-02 10:00:00" "2025-03-04 12:30:00"
           sample_booking.2 (VStr "SF-TEKI-0A1B2C")
           (cancelled_result (VStr "SF-TEKI-0A1B2C") 1575000 (PFloat 675000))
           sample_cancellation.2);
    reflexivity.
Defined.

(** X6: after a successful cancellation, [get_ticket_info] on the same id
    returns the ticket with status CANCELLED, the cancellation date of the
    call and the price it was booked at. *)
Theorem get_ticket_info_after_cancel O now db key r db' :
  cancel_ticket O now db key = (Ok r, db') → result_status r = success →
  ∃ id t t',
    key = VStr id ∧ db !! id = Some t ∧
    get_ticket_info db' key =
      Ok {| result_status := success;
            message := [Lit "Ticket information retrieved."];
            fields := Details t' |} ∧
    status t' = CANCELLED ∧ cancellation_date t' = Some now ∧
    price_irr t' = price_irr t ∧ booking_date t' = booking_date t.
Proof.
  intros Hc Hs.
  destruct (cancel_ticket_inv _ _ _ _ _ _ Hc)
    as [[_ Hne]|(id & t & refund & penalty & -> & Hl & _ & _ & _ & _ & ->)];
    [done|].
  exists id, t, (mark_cancelled now t).
  split; [done|]. split; [done|]. split; [|done].
  unfold get_ticket_info. cbn [db_get]. by rewrite lookup_insert_eq.
Qed.

Lemma get_ticket_info_after_cancel_witness :
  cancel_ticket mock_oracle "2025-03-02 10:00:00" sample_booking.2
      (VStr "SF-TEKI-0A1B2C")
    = sample_cancellation ∧
  (∃ r, sample_cancellation.1 = Ok r ∧ result_status r = success) ∧
  ∃ id t t',
    VStr "SF-TEKI-0A1B2C" = VStr id ∧ sample_booking.2 !! id = Some t ∧
    get_ticket_info sample_cancellation.2 (VStr "SF-TEKI-0A1B2C") =
      Ok {| result_status := success;
            message := [Lit "Ticket information retrieved."];
            fields := Details t' |} ∧
    status t' = CANCELLED ∧ cancellation_date t' = Some "2025-03-02 10:00:00" ∧
    price_irr t' = price_irr t ∧ booking_date t' = booking_date t.
Proof.
  split; [reflexivity|]. split; [by eexists|].
  apply (get_ticket_info_after_cancel mock_oracle "2025-03-02 10:00:00"
           sample_booking.2 (VStr "SF-TEKI-0A1B2C")
           (cancelled_result (VStr "SF-TEKI-0A1B2C") 1575000 (PFloat 675000))
           sample_cancellation.2);
    reflexivity.
Defined.

(** A ticket id that is not a string is never found: [None], booleans
    and numbers get the not-found result from [cancel_ticket] and
    [get_ticket_info] and the store is untouched, while a list or a dict
    makes both raise [TypeError]. *)
Theorem ticket_id_not_a_string O now db key :
  (∀ id, key ≠ VStr id) →
  match key with
  | VList _ | VDict _ =>
      cancel_ticket O now db key = (Raise TypeError, db) ∧
      get_ticket_info db key = Raise TypeError
  | _ =>
      cancel_ticket O now db key = (Ok (not_found key), db) ∧
      get_ticket_info db key = Ok (not_found key)
  end.
Proof.
  intros Hkey. destruct key; try done. by destruct (Hkey s).
Qed.

Lemma ticket_id_not_a_string_witness :
  (∀ id, VInt 42 ≠ VStr id) ∧
  cancel_ticket mock_oracle "2025-03-02 10:00:00" sample_booking.2 (VInt 42)
    = (Ok (not_found (VInt 42)), sample_booking.2) ∧
  get_ticket_info sample_booking.2 (VInt 42) = Ok (not_found (VInt 42)).
Proof.
  split; [discriminate|].
  apply (ticket_id_not_a_string mock_oracle "2025-03-02 10:00:00" sample_booking.2
           (VInt 42)).
  discriminate.
Defined.

(** ** Invariants of the stores the program can reach *)

(** A property of tickets that holds of every ticket [book_ticket] builds
    and that cancelling keeps holds of every ticket of a reachable store. *)
Lemma reachable_tickets (P : string → ticket → Prop) :
  (∀ O hex now db os ds date p nid dep,
      forallb truthy [VStr os; VStr ds; date; p; nid] = true →
      travel_times !! (size db mod 3)%nat = Some dep →
      P (ticket_id (new_ticket O hex now db os ds date p nid dep))
        (new_ticket O hex now db os ds date p nid dep)) →
  (∀ now id t, P id t → status t = CONFIRMED → P id (mark_cancelled now t)) →
  ∀ db, reachable db → ∀ id t, db !! id = Some t → P id t.
Proof.
  intros Hnew Hcancel db Hreach.
  induction Hreach as [|O hex now db o d date p nid Hreach IH|O now db key Hreach IH];
    intros id t Hl.
  - by rewrite lookup_empty in Hl.
  - destruct (book_ticket_store _ _ _ _ _ _ _ _ _ _ _ Hl)
      as [Hl0|(os & ds & dep & -> & -> & Hall & Hdep & -> & ->)]; [eauto|].
    by apply Hnew.
  - pose proof (cancel_ticket_cases O now db key) as Hcase.
    destruct (cancel_ticket O now db key) as [r db'].
    cbn [snd] in Hl.
    inversion Hcase as [|?|id0 t0 ? ? ?|id0 t0 e|id0 t0 refund penalty e Hk Hl0 Hst
                        |id0 t0 refund penalty Hk Hl0 Hst]; subst; eauto;
      rewrite lookup_insert in Hl; case_decide; simplify_eq; eauto.
Qed.

(** X7: in a reachable store every ticket is filed under its own id, and
    that id has the form SF-, city letters, a dash, uuid digits. *)
Theorem reachable_keys_are_ticket_ids db id t :
  reachable db → db !! id = Some t →
  ticket_id t = id ∧
  ∃ cities digits, id = "SF-" +:+ cities +:+ "-" +:+ digits.
Proof.
  intros Hreach Hl.
  apply (reachable_tickets
           (λ id t, ticket_id t = id ∧
                    ∃ cities digits, id = "SF-" +:+ cities +:+ "-" +:+ digits))
    with (db := db); [| |done..].
  - intros. split; [done|]. cbn [new_ticket ticket_id]. eauto.
  - intros now0 id0 t0 [? ?] _. by split.
Qed.

Lemma reachable_keys_are_ticket_ids_witness :
  reachable sample_booking.2 ∧
  sample_booking.2 !! "SF-TEKI-0A1B2C" = Some sample_ticket ∧
  ticket_id sample_ticket = "SF-TEKI-0A1B2C" ∧
  ∃ cities digits, "SF-TEKI-0A1B2C" = "SF-" +:+ cities +:+ "-" +:+ digits.
Proof.
  split; [apply sample_store_reachable|]. split; [reflexivity|].
  apply (reachable_keys_are_ticket_ids sample_booking.2 "SF-TEKI-0A1B2C" sample_ticket).
  - apply sample_store_reachable.
  - reflexivity.
Defined.

(** X8: in a reachable store a ticket has a cancellation date exactly when
    its status is CANCELLED. *)
Theorem reachable_status_matches_cancellation_date db id t :
  reachable db → db !! id = Some t →
  (status t = CANCELLED ↔ is_Some (cancellation_date t)) ∧
  (status t = CONFIRMED ↔ cancellation_date t = None).
Proof.
  intros Hreach Hl.
  apply (reachable_tickets
           (λ _ t, (status t = CANCELLED ↔ is_Some (cancellation_date t)) ∧
                   (status t = CONFIRMED ↔ cancellation_date t = None)))
    with (db := db) (id := id); [| |done..].
  - intros. cbn [new_ticket status cancellation_date].
    split; split; try done; by intros [? ?].
  - intros now0 _ t0 _ _. cbn [mark_cancelled status cancellation_date].
    split; split; try done; by eexists.
Qed.

Lemma reachable_status_matches_cancellation_date_witness :
  reachable sample_booking.2 ∧
  sample_booking.2 !! "SF-TEKI-0A1B2C" = Some sample_ticket ∧
  (status sample_ticket = CANCELLED ↔ is_Some (cancellation_date sample_ticket)) ∧
  (status sample_ticket = CONFIRMED ↔ cancellation_date sample_ticket = None).
Proof.
  split; [apply sample_store_reachable|]. split; [reflexivity|].
  apply (reachable_status_matches_cancellation_date sample_booking.2
           "SF-TEKI-0A1B2C" sample_ticket).
  - apply sample_store_reachable.
  - reflexivity.
Defined.

(** X9: in a reachable store every ticket has a departure time that is one
    of the three slots, an origin and a destination that are non-empty
    strings, and a travel date, passenger name and national id that are
    truthy. *)
Theorem reachable_tickets_are_complete db id t :
  reachable db → db !! id = Some t →
  departure_time t ∈ travel_times ∧
  (∃ os, origin t = VStr os ∧ os ≠ "") ∧
  (∃ ds, destination t = VStr ds ∧ ds ≠ "") ∧
  truthy (travel_date t) = true ∧ truthy (passenger_name t) = true ∧
  truthy (national_id t) = true.
Proof.
  intros Hreach Hl.
  apply (reachable_tickets
           (λ _ t, departure_time t ∈ travel_times ∧
                   (∃ os, origin t = VStr os ∧ os ≠ "") ∧
                   (∃ ds, destination t = VStr ds ∧ ds ≠ "") ∧
                   truthy (travel_date t) = true ∧ truthy (passenger_name t) = true ∧
                   truthy (national_id t) = true))
    with (db := db) (id := id); [| |done..].
  - intros O hex now db0 os ds date p nid dep Hall Hdep.
    cbn [forallb] in Hall.
    apply andb_prop in Hall as [Ho Hall]. apply andb_prop in Hall as [Hd Hall].
    apply andb_prop in Hall as [Hdate Hall]. apply andb_prop in Hall as [Hp Hall].
    apply andb_prop in Hall as [Hnid _].
    cbn [new_ticket departure_time origin destination travel_date passenger_name
         national_id].
    split; [by eapply list_elem_of_lookup_2|].
    split; [exists os; split; [done|]; by intros ->|].
    split; [exists ds; split; [done|]; by intros ->|].
    done.
  - intros now0 _ t0 H _. exact H.
Qed.

Lemma reachable_tickets_are_complete_witness :
  reachable sample_booking.2 ∧
  sample_booking.2 !! "SF-TEKI-0A1B2C" = Some sample_ticket ∧
  departure_time sample_ticket ∈ travel_times ∧
  (∃ os, origin sample_ticket = VStr os ∧ os ≠ "") ∧
  (∃ ds, destination sample_ticket = VStr ds ∧ ds ≠ "") ∧
  truthy (travel_date sample_ticket) = true ∧
  truthy (passenger_name sample_ticket) = true ∧
  truthy (national_id sample_ticket) = true.
Proof.
  split; [apply sample_store_reachable|]. split; [reflexivity|].
  apply (reachable_tickets_are_complete sample_booking.2 "SF-TEKI-0A1B2C" sample_ticket).
  - apply sample_store_reachable.
  - reflexivity.
Defined.

(** ** The policy tool *)

(** When [lookup_policy] returns, its status is error exactly when the
    collection is empty; it is success only when the query has returned a
    first document, which is then the policy text of the result, and info
    otherwise. *)
Theorem lookup_policy_status O query r :
  lookup_policy O query = Ok r →
  (result_status r = error ↔ collection_count O = 0%nat) ∧
  (result_status r = success ↔
     ∃ doc docs others,
       collection_count O ≠ 0%nat ∧
       collection_query O query = Ok (Some ((doc :: docs) :: others)) ∧
       fields r = Policy doc) ∧
  (result_status r ≠ success → fields r = NoPayload).
Proof.
  unfold lookup_policy.
  destruct (collection_count O =? 0)%nat eqn:Hcount.
  - apply Nat.eqb_eq in Hcount. intros [= <-]. cbn [result_status fields].
    split; [done|]. split; [|done]. split; [done|]. by intros (? & ? & ? & ? & _).
  - apply Nat.eqb_neq in Hcount.
    destruct (collection_query O query) as [results|e]; [|done].
    cbn [mbind pyresult_bind].
    destruct results as [[|[|doc docs] others]|]; intros [= <-];
      cbn [result_status fields];
      (split; [done|]); (split; [|done]);
      (split; [try done|try (by intros (? & ? & ? & _ & [=] & _))]).
    intros _. by exists doc, docs, others.
Qed.

(** * Further properties of tool dispatch *)

Lemma kwargs_get_None key d : kwargs_get key d = None ↔ key ∉ d.*1.
Proof.
  induction d as [|[k v] d IH]; cbn [kwargs_get fmap list_fmap fst].
  - split; [intros _; apply not_elem_of_nil|done].
  - rewrite not_elem_of_cons. destruct (String.eqb k key) eqn:Hk.
    + apply String.eqb_eq in Hk. split; [done|]. by intros [? _].
    + apply String.eqb_neq in Hk. rewrite IH. split; [by split|by intros [_ ?]].
Qed.

Lemma bind_parameters_ok params d :
  (∀ p, p ∈ params → p ∈ d.*1) →
  ∃ args, bind_parameters params d = Ok args ∧ length args = length params.
Proof.
  induction params as [|p params IH]; intros Hall; cbn [bind_parameters].
  - by exists [].
  - destruct (kwargs_get p d) as [v|] eqn:Hget.
    + destruct IH as (args & -> & Hlen).
      { intros q Hq. apply Hall. by right. }
      cbn [mbind pyresult_bind]. exists (v :: args). split; [done|].
      cbn [length]. by rewrite Hlen.
    + apply kwargs_get_None in Hget. destruct Hget. apply Hall. by left.
Qed.

Lemma bind_parameters_missing params d p :
  p ∈ params → p ∉ d.*1 → bind_parameters params d = Raise TypeError.
Proof.
  induction params as [|q params IH]; intros Hin Hnot; [by apply elem_of_nil in Hin|].
  cbn [bind_parameters]. apply elem_of_cons in Hin as [<-|Hin].
  - apply kwargs_get_None in Hnot. by rewrite Hnot.
  - destruct (kwargs_get q d); [|done]. by rewrite IH.
Qed.

Lemma func_map_lookup n f : func_map !! n = Some f → __name__ f = n.
Proof.
  unfold func_map, get_tool_callables. cbn [foldl __name__].
  rewrite !lookup_insert.
  repeat case_decide; try (by intros [= <-]); by rewrite lookup_empty.
Qed.

(** X11: for a registered tool and a payload that decodes, dispatch raises
    whenever the payload is not an object, names an argument the method
    does not have, or leaves out one it has: [TypeError] from the call,
    or, before that, the exception of the debug line when it does not
    print.  The store is as it was. *)
Theorem dispatch_bad_payload_raises O w tc f v :
  func_map !! name (function tc) = Some f →
  json_loads (arguments (function tc)) = Ok v →
  match v with
  | VDict d => (∃ k, k ∈ d.*1 ∧ k ∉ parameters f) ∨
               (∃ p, p ∈ parameters f ∧ p ∉ d.*1)
  | _ => True
  end →
  _execute_tool_call O w tc =
    (Raise match py_print O (executing_line (name (function tc)) v) with
           | None => TypeError
           | Some e => e
           end, w).
Proof.
  intros Hf Hv Hbad. unfold _execute_tool_call. rewrite Hf, Hv.
  destruct (py_print O _); [done|].
  unfold call.
  assert (bind_kwargs f v = Raise TypeError) as ->; [|done].
  destruct v as [| | | | | |d]; try done. cbn [bind_kwargs].
  destruct (forallb _ d) eqn:Hkeys; [|done].
  destruct Hbad as [(k & Hk & Hnot)|(p & Hp & Hnot)].
  - exfalso. apply list_elem_of_fmap in Hk as ([k' v'] & -> & Hin).
    rewrite forallb_forall in Hkeys.
    apply list_elem_of_In, Hkeys, bool_decide_eq_true in Hin. done.
  - by eapply bind_parameters_missing.
Qed.

Lemma dispatch_bad_payload_raises_witness :
  func_map !! name (function overfull_cancel_request) = Some ticket_tool_cancel_ticket ∧
  json_loads (arguments (function overfull_cancel_request)) =
    Ok (VDict [("ticket_id", VStr "SF-TEKI-0A1B2C");
               ("reason", VStr "change of plans")]) ∧
  _execute_tool_call mock_oracle fresh_world overfull_cancel_request
    = (Raise TypeError, fresh_world).
Proof.
  split; [reflexivity|]. split; [reflexivity|].
  apply (dispatch_bad_payload_raises mock_oracle fresh_world overfull_cancel_request
           ticket_tool_cancel_ticket
           (VDict [("ticket_id", VStr "SF-TEKI-0A1B2C");
                   ("reason", VStr "change of plans")])); [reflexivity..|].
  left. exists "reason". split.
  - cbn. right. left.
  - cbn. rewrite elem_of_cons, elem_of_nil. by intros [[=]|[]].
Defined.

(** X12: the schemas and the callables agree: every schema of
    [get_tool_schemas] names a registered callable, declares a string
    property for each required name and nothing else, and a payload object
    whose keys are exactly the required names is bound to that callable,
    one value per name. *)
Theorem schema_conforming_payload_binds sch d :
  sch ∈ get_tool_schemas →
  (∀ k, k ∈ d.*1 ↔ k ∈ required (schema_parameters sch)) →
  ∃ f args,
    func_map !! schema_name sch = Some f ∧
    (properties (schema_parameters sch)).*1 = required (schema_parameters sch) ∧
    Forall (λ kp, property_type kp.2 = "string") (properties (schema_parameters sch)) ∧
    bind_kwargs f (VDict d) = Ok args ∧
    length args = length (required (schema_parameters sch)).
Proof.
  intros Hsch Hkeys.
  assert (∃ f, func_map !! schema_name sch = Some f ∧
               parameters f = required (schema_parameters sch) ∧
               (properties (schema_parameters sch)).*1 = required (schema_parameters sch) ∧
               Forall (λ kp, property_type kp.2 = "string")
                      (properties (schema_parameters sch)))
    as (f & Hf & Hparams & Hprops & Hty).
  { unfold get_tool_schemas in Hsch.
    repeat (apply elem_of_cons in Hsch as [->|Hsch]);
      [eexists; split; [reflexivity|]; split; [reflexivity|]; split;
         [reflexivity|repeat constructor]..|].
    by apply elem_of_nil in Hsch. }
  destruct (bind_parameters_ok (parameters f) d) as (args & Hbind & Hlen).
  { intros p Hp. apply Hkeys. by rewrite <- Hparams. }
  exists f, args. split; [done|]. split; [done|]. split; [done|].
  split; [|by rewrite Hlen, Hparams].
  cbn [bind_kwargs].
  assert (forallb (λ kv, bool_decide (kv.1 ∈ parameters f)) d = true) as ->; [|done].
  apply forallb_forall. intros [k v] Hin. apply bool_decide_eq_true.
  rewrite Hparams. apply Hkeys. apply list_elem_of_fmap.
  exists (k, v). split; [done|]. by apply list_elem_of_In.
Qed.

Lemma schema_conforming_payload_binds_witness :
  get_cancel_ticket_schema ∈ get_tool_schemas ∧
  (∀ k, k ∈ [("ticket_id", VStr "SF-TEKI-0A1B2C")].*1 ↔
        k ∈ required (schema_parameters get_cancel_ticket_schema)) ∧
  ∃ f args,
    func_map !! schema_name get_cancel_ticket_schema = Some f ∧
    (properties (schema_parameters get_cancel_ticket_schema)).*1
      = required (schema_parameters get_cancel_ticket_schema) ∧
    Forall (λ kp, property_type kp.2 = "string")
           (properties (schema_parameters get_cancel_ticket_schema)) ∧
    bind_kwargs f (VDict [("ticket_id", VStr "SF-TEKI-0A1B2C")]) = Ok args ∧
    length args = length (required (schema_parameters get_cancel_ticket_schema)).
Proof.
  assert (get_cancel_ticket_schema ∈ get_tool_schemas) as Hin.
  { unfold get_tool_schemas. right. left. }
  split; [exact Hin|]. split; [by intros k|].
  apply (schema_conforming_payload_binds get_cancel_ticket_schema
           [("ticket_id", VStr "SF-TEKI-0A1B2C")] Hin).
  by intros k.
Defined.

Lemma bind_kwargs_ok f d :
  (∀ k, k ∈ d.*1 ↔ k ∈ parameters f) →
  ∃ args, bind_kwargs f (VDict d) = Ok args ∧ length args = length (parameters f).
Proof.
  intros Hkeys.
  destruct (bind_parameters_ok (parameters f) d) as (args & Hbind & Hlen).
  { intros p Hp. by apply Hkeys. }
  exists args. split; [|done]. cbn [bind_kwargs].
  assert (forallb (λ kv, bool_decide (kv.1 ∈ parameters f)) d = true) as ->; [|done].
  apply forallb_forall. intros [k v] Hin. apply bool_decide_eq_true.
  apply Hkeys, list_elem_of_fmap. exists (k, v). split; [done|].
  by apply list_elem_of_In.
Qed.

(** X13: a [book_ticket] request whose payload is an object with exactly
    the five parameter names is dispatched to a result, whatever the values
    are, once the debug line of the dispatch is printed (its exception
    leaves the dispatch otherwise).  The status is success or error; with
    an error the store is as it was, unless the ticket was stored and the
    debug line of the booking then failed to print. *)
Theorem dispatch_book_ticket_returns O w tc d :
  name (function tc) = "book_ticket" →
  arguments (function tc) = JSON (VDict d) →
  (∀ k, k ∈ d.*1 ↔ k ∈ parameters ticket_tool_book_ticket) →
  match py_print O (executing_line "book_ticket" (VDict d)) with
  | Some e => _execute_tool_call O w tc = (Raise e, w)
  | None =>
      ∃ r w', _execute_tool_call O w tc = (Ok r, w') ∧
              clock w' = S (clock w) ∧
              (result_status r = success ∨
               result_status r = error ∧
               (TICKET_DB w' = TICKET_DB w ∨
                ∃ tk e, py_print O (booked_line (ticket_id tk)) = Some e ∧
                        TICKET_DB w' = <[ticket_id tk := tk]> (TICKET_DB w)))
  end.
Proof.
  intros Hname Hargs Hkeys. unfold _execute_tool_call. rewrite Hname, Hargs.
  change (func_map !! "book_ticket") with (Some ticket_tool_book_ticket).
  cbn [json_loads].
  destruct (py_print O (executing_line "book_ticket" (VDict d))); [done|].
  unfold call.
  destruct (bind_kwargs_ok _ _ Hkeys) as (args & -> & Hlen).
  destruct args as [|a1 [|a2 [|a3 [|a4 [|a5 [|]]]]]]; try done.
  destruct (book_ticket_cases O (uuid4_hex O (clock w)) (strftime_now O (clock w))
              (TICKET_DB w) a1 a2 a3 a4 a5)
    as [Hall|e Hall Htk|tk e Hall Htk Hp|tk Hall Htk Hp];
    eexists _, _; (split; [reflexivity|]); (split; [reflexivity|]);
    cbn [TICKET_DB]; eauto 10.
Qed.

Lemma dispatch_book_ticket_returns_witness :
  name (function complete_booking_request) = "book_ticket" ∧
  (∀ k, k ∈ [("national_id", VStr "0012345678"); ("origin_city", VStr "Tehran");
             ("destination_city", VStr "Kish"); ("travel_date", VStr "1403/12/20");
             ("passenger_name", VStr "Sara Ahmadi")].*1 ↔
        k ∈ parameters ticket_tool_book_ticket) ∧
  ∃ r w', _execute_tool_call mock_oracle fresh_world complete_booking_request
            = (Ok r, w') ∧
          clock w' = S (clock fresh_world) ∧
          (result_status r = success ∨
           result_status r = error ∧
           (TICKET_DB w' = TICKET_DB fresh_world ∨
            ∃ tk e, py_print mock_oracle (booked_line (ticket_id tk)) = Some e ∧
                    TICKET_DB w' = <[ticket_id tk := tk]> (TICKET_DB fresh_world))).
Proof.
  assert (∀ k, k ∈ [("national_id", VStr "0012345678"); ("origin_city", VStr "Tehran");
             ("destination_city", VStr "Kish"); ("travel_date", VStr "1403/12/20");
             ("passenger_name", VStr "Sara Ahmadi")].*1 ↔
        k ∈ parameters ticket_tool_book_ticket) as Hkeys.
  { intros k. cbn. rewrite !elem_of_cons, !elem_of_nil. tauto. }
  split; [reflexivity|]. split; [exact Hkeys|].
  apply (dispatch_book_ticket_returns mock_oracle fresh_world complete_booking_request
           [("national_id", VStr "0012345678"); ("origin_city", VStr "Tehran");
            ("destination_city", VStr "Kish"); ("travel_date", VStr "1403/12/20");
            ("passenger_name", VStr "Sara Ahmadi")]); [reflexivity..|exact Hkeys].
Defined.

(** X14: only [book_ticket] and [cancel_ticket] write to the store: a call
    of any other name, registered or not, leaves [TICKET_DB] as it was,
    whether it returns or raises. *)
Theorem only_book_and_cancel_write O w tc :
  name (function tc) ∉ ["book_ticket"; "cancel_ticket"] →
  TICKET_DB (_execute_tool_call O w tc).2 = TICKET_DB w.
Proof.
  unfold _execute_tool_call.
  destruct (func_map !! name (function tc)) as [f|] eqn:Hf; [|done].
  destruct (json_loads _) as [v|e]; [|by destruct e].
  destruct (py_print O _); [done|].
  apply func_map_lookup in Hf. intros Hname. rewrite <- Hf in Hname.
  unfold call.
  destruct (bind_kwargs f v) as [args|]; [|done].
  destruct f; cbn [__name__] in Hname.
  - destruct Hname. left.
  - destruct Hname. right. left.
  - by destruct args as [|a1 [|]].
  - by destruct args as [|a1 [|]].
  - by destruct args as [|a1 [|]].
Qed.

Lemma only_book_and_cancel_write_witness :
  _execute_tool_call mock_oracle {| TICKET_DB := sample_booking.2; clock := 1 |}
      ticket_lookup_request =
    (Ok {| result_status := success;
           message := [Lit "Ticket information retrieved."];
           fields := Details sample_ticket |},
     {| TICKET_DB := sample_booking.2; clock := 1 |}) ∧
  (name (function ticket_lookup_request) ∉ ["book_ticket"; "cancel_ticket"]) ∧
  TICKET_DB (_execute_tool_call mock_oracle
               {| TICKET_DB := sample_booking.2; clock := 1 |}
               ticket_lookup_request).2
    = TICKET_DB {| TICKET_DB := sample_booking.2; clock := 1 |}.
Proof.
  assert (name (function ticket_lookup_request) ∉ ["book_ticket"; "cancel_ticket"])
    as Hname.
  { cbn. rewrite !elem_of_cons, elem_of_nil. by intros [[=]|[[=]|[]]]. }
  split; [reflexivity|]. split; [exact Hname|].
  apply (only_book_and_cancel_write mock_oracle
           {| TICKET_DB := sample_booking.2; clock := 1 |} ticket_lookup_request).
  exact Hname.
Defined.

(** X15: the calls of one round run in request order, each on the store
    the one before has left: running two lists of calls one after the other
    is running their concatenation, and an exception in the first list
    keeps the second from running. *)
Theorem run_tool_calls_app O w calls1 calls2 :
  run_tool_calls O w (calls1 ++ calls2) =
    match run_tool_calls O w calls1 with
    | (Ok outputs1, w1) =>
        match run_tool_calls O w1 calls2 with
        | (Ok outputs2, w2) => (Ok (outputs1 ++ outputs2), w2)
        | (Raise e, w2) => (Raise e, w2)
        end
    | (Raise e, w1) => (Raise e, w1)
    end.
Proof.
  revert w. induction calls1 as [|tc calls1 IH]; intros w.
  - cbn [app run_tool_calls].
    by destruct (run_tool_calls O w calls2) as [[outs|e] w2].
  - cbn [app run_tool_calls].
    destruct (_execute_tool_call O w tc) as [[res|e] w0]; [|done].
    rewrite IH.
    destruct (run_tool_calls O w0 calls1) as [[outs1|e] w1]; [|done].
    by destruct (run_tool_calls O w1 calls2) as [[outs2|e] w2].
Qed.

(** * Further properties of the orchestrator loop *)

Lemma book_ticket_keeps_keys O hex now db o d date p nid id :
  is_Some (db !! id) →
  is_Some ((book_ticket O hex now db o d date p nid).2 !! id).
Proof.
  intros Hid.
  destruct (book_ticket_cases O hex now db o d date p nid)
    as [Hall|e Hall Htk|tk e Hall Htk Hp|tk Hall Htk Hp]; cbn [snd]; try done;
    rewrite lookup_insert_is_Some; destruct (decide (ticket_id tk = id)); auto.
Qed.

Lemma cancel_ticket_keeps_keys O now db key id :
  is_Some (db !! id) → is_Some ((cancel_ticket O now db key).2 !! id).
Proof.
  intros Hid.
  destruct (cancel_ticket_cases O now db key)
    as [|?|id0 t ? ? ?|id0 t e|id0 t refund penalty e|id0 t refund penalty];
    cbn [snd]; try done;
    rewrite lookup_insert_is_Some; destruct (decide (id0 = id)); auto.
Qed.

Lemma dispatch_keeps_keys O w tc id :
  is_Some (TICKET_DB w !! id) →
  is_Some (TICKET_DB (_execute_tool_call O w tc).2 !! id).
Proof.
  intros Hid. unfold _execute_tool_call.
  destruct (func_map !! name (function tc)) as [f|]; [|done].
  destruct (json_loads _) as [v|e]; [|by destruct e].
  destruct (py_print O _); [done|].
  unfold call. destruct (bind_kwargs f v) as [args|]; [|done].
  destruct f.
  - destruct args as [|a1 [|a2 [|a3 [|a4 [|a5 [|]]]]]]; try done.
    pose proof (book_ticket_keeps_keys O (uuid4_hex O (clock w))
                  (strftime_now O (clock w)) (TICKET_DB w) a1 a2 a3 a4 a5 id Hid) as Hk.
    by destruct (book_ticket _ _ _ _ _ _ _ _ _) as [r0 db0].
  - destruct args as [|a1 [|]]; try done.
    pose proof (cancel_ticket_keeps_keys O (strftime_now O (clock w))
                  (TICKET_DB w) a1 id Hid) as Hk.
    by destruct (cancel_ticket _ _ _ _) as [r0 db0].
  - by destruct args as [|a1 [|]].
  - by destruct args as [|a1 [|]].
  - by destruct args as [|a1 [|]].
Qed.

Lemma run_tool_calls_keeps_keys O calls id : ∀ w,
  is_Some (TICKET_DB w !! id) →
  is_Some (TICKET_DB (run_tool_calls O w calls).2 !! id).
Proof.
  induction calls as [|tc calls IH]; intros w Hid; cbn [run_tool_calls]; [done|].
  pose proof (dispatch_keeps_keys O w tc id Hid) as Hx.
  destruct (_execute_tool_call O w tc) as [[res|e] w0]; [|done].
  specialize (IH w0 Hx).
  by destruct (run_tool_calls O w0 calls) as [[outs|e] w1].
Qed.

(** X16: no ticket is ever deleted: whatever the Completion Service
    answers and whatever the tools do, every id that is in the store before
    a turn is in the store after it, also when the turn ends in an
    exception. *)
Theorem process_message_keeps_tickets C O s user_message id :
  is_Some (TICKET_DB (outside s) !! id) →
  is_Some (TICKET_DB (outside (process_message C O s user_message).2) !! id).
Proof.
  assert (∀ range s0, is_Some (TICKET_DB (outside s0) !! id) →
            is_Some (TICKET_DB (outside (for_range C O range s0).2) !! id)) as Hrange.
  { induction range as [|i range IH]; intros s0 Hid; cbn [for_range]; [done|].
    destruct (C i (history s0)) as [e|r]; [done|].
    destruct (if_content (content r)); [done|].
    destruct (tool_calls r) as [|tc calls] eqn:Hcalls; [done|].
    pose proof (run_tool_calls_keeps_keys O (tc :: calls) id (outside s0) Hid) as Hk.
    destruct (run_tool_calls O (outside s0) (tc :: calls)) as [[outs|e] w1]; [|done].
    by apply IH. }
  intros Hid. unfold process_message. apply Hrange. exact Hid.
Qed.

Lemma process_message_keeps_tickets_witness :
  is_Some (TICKET_DB (outside session_with_ticket) !! "SF-TEKI-0A1B2C") ∧
  is_Some (TICKET_DB (outside (process_message fails_on_second_call mock_oracle
                                 session_with_ticket
                                 "Please cancel ticket SF-TEKI-0A1B2C").2)
             !! "SF-TEKI-0A1B2C").
Proof.
  assert (is_Some (TICKET_DB (outside session_with_ticket) !! "SF-TEKI-0A1B2C")) as Hid.
  { exists sample_ticket. reflexivity. }
  split; [exact Hid|].
  apply (process_message_keeps_tickets fails_on_second_call mock_oracle
           session_with_ticket "Please cancel ticket SF-TEKI-0A1B2C"
           "SF-TEKI-0A1B2C" Hid).
Defined.

Lemma for_range_prefix C O range : ∀ s h,
  h `prefix_of` history s → (length h < length (history s))%nat →
  h `prefix_of` history (for_range C O range s).2.
Proof.
  assert (∀ (h : list history_message) l,
            h `prefix_of` l → (length h < length l)%nat → h `prefix_of` pop l) as Hpop.
  { intros h l [k ->] Hlen. rewrite length_app in Hlen.
    destruct k as [|x k]; [cbn in Hlen; lia|].
    unfold pop. rewrite removelast_app by done. by eexists. }
  induction range as [|i range IH]; intros s h Hpre Hlen; cbn [for_range]; [done|].
  destruct (C i (history s)) as [e|r]; [by apply Hpop|].
  destruct (if_content (content r)).
  { cbn [snd set_history history]. by apply prefix_app_r. }
  destruct (tool_calls r) as [|tc calls]; [by apply Hpop|].
  destruct (run_tool_calls O (outside s) (tc :: calls)) as [[outs|e] w1].
  - apply IH; cbn [history].
    + by do 2 apply prefix_app_r.
    + rewrite !length_app. lia.
  - cbn [snd history]. by apply prefix_app_r.
Qed.

(** X17: a turn never rewrites the past: the history before
    [process_message] is a prefix of the history after it, whatever the
    outcome, so the first entry (the system message) stays the first
    entry. *)
Theorem process_message_extends_history C O s user_message :
  history s `prefix_of` history (process_message C O s user_message).2 ∧
  (history s ≠ [] →
   head (history (process_message C O s user_message).2) = head (history s)).
Proof.
  assert (history s `prefix_of` history (process_message C O s user_message).2)
    as Hpre.
  { unfold process_message. apply for_range_prefix; cbn [set_history history].
    - by apply prefix_app_r.
    - rewrite length_app. cbn [length]. lia. }
  split; [exact Hpre|].
  intros Hne. destruct Hpre as [k ->].
  by destruct (history s).
Qed.




(** X19: when the Completion Service answers with non-empty text after
    fewer than five tool-call rounds, [process_message] returns that text,
    and the history is the old history, the user message, the exchanges of
    the rounds and the assistant message with the text, in this order. *)
Theorem text_after_tool_rounds C O s user_message rounds model_response text :
  (length rounds < 5)%nat →
  tool_rounds C O 0 (set_history s (history s ++ [UserMessage user_message])) rounds →
  C (length rounds) (history s ++ UserMessage user_message :: exchanges rounds)
    = Completion model_response →
  content model_response = Some text → text ≠ "" →
  process_message C O s user_message =
    (Returns text,
     {| history := history s ++ UserMessage user_message :: exchanges rounds
                   ++ [AssistantMessage text];
        outside := store_after (outside s) rounds |}).
Proof.
  intros Hlen Hrounds HC Hcontent Htext. unfold process_message.
  replace 5%nat with (length rounds + S (4 - length rounds))%nat by lia.
  rewrite seq_app, (for_range_after_rounds _ _ _ _ _ _ Hrounds).
  cbn [seq for_range set_history history outside].
  rewrite <- app_assoc. cbn [app]. rewrite Nat.add_0_l, HC, Hcontent.
  destruct text as [|c text]; [done|]. cbn [if_content set_history history outside].
  by rewrite <- app_assoc.
Qed.

Lemma text_after_tool_rounds_witness :
  (length [lookup_round] < 5)%nat ∧
  tool_rounds looks_up_then_answers mock_oracle 0
    (set_history new_session (history new_session ++ [UserMessage "Where is my ticket?"]))
    [lookup_round] ∧
  process_message looks_up_then_answers mock_oracle new_session "Where is my ticket?" =
    (Returns "I could not find that ticket.",
     {| history := history new_session ++
                   UserMessage "Where is my ticket?" :: exchanges [lookup_round]
                   ++ [AssistantMessage "I could not find that ticket."];
        outside := store_after (outside new_session) [lookup_round] |}).
Proof.
  assert (tool_rounds looks_up_then_answers mock_oracle 0
            (set_history new_session
               (history new_session ++ [UserMessage "Where is my ticket?"]))
            [lookup_round]) as Hrounds.
  { cbn [tool_rounds lookup_round].
    repeat (split; [reflexivity || discriminate|]). exact I. }
  split; [cbn; lia|]. split; [exact Hrounds|].
  apply (text_after_tool_rounds looks_up_then_answers mock_oracle new_session
           "Where is my ticket?" [lookup_round]
           {| content := Some "I could not find that ticket."; tool_calls := [] |}
           "I could not find that ticket.").
  - cbn. lia.
  - exact Hrounds.
  - reflexivity.
  - reflexivity.
  - discriminate.
Defined.

(** X20: when the first answer of the Completion Service has neither text
    (none, or the empty string) nor tool calls, [process_message] returns
    the clarification request and the session is exactly as it was before
    the turn. *)
Theorem empty_first_answer_rolls_back C O s user_message model_response :
  C 0%nat (history s ++ [UserMessage user_message]) = Completion model_response →
  content model_response = None ∨ content model_response = Some "" →
  tool_calls model_response = [] →
  process_message C O s user_message = (Returns fallback_msg, s).
Proof.
  intros HC Hcontent Hcalls. unfold process_message.
  cbn [seq for_range set_history history outside]. rewrite HC, Hcalls.
  assert (if_content (content model_response) = None) as ->
    by (by destruct Hcontent as [-> | ->]).
  unfold pop. rewrite removelast_last. by destruct s.
Qed.

Lemma empty_first_answer_rolls_back_witness :
  answers_nothing 0%nat (history new_session ++ [UserMessage "..."]) =
    Completion {| content := Some ""; tool_calls := [] |} ∧
  process_message answers_nothing mock_oracle new_session "..."
    = (Returns fallback_msg, new_session).
Proof.
  split; [reflexivity|].
  apply (empty_first_answer_rolls_back answers_nothing mock_oracle new_session "..."
           {| content := Some ""; tool_calls := [] |}).
  - reflexivity.
  - by right.
  - reflexivity.
Defined.

Lemma api_failure_first_iteration_witness :
  fails_at_once 0%nat (history new_session ++ [UserMessage "Book a flight to Shiraz"])
    = APIFailure "Connection error." ∧
  process_message fails_at_once mock_oracle new_session "Book a flight to Shiraz"
    = (Returns (api_error_msg "Connection error."), new_session).
Proof.
  split; [reflexivity|].
  apply (api_failure_first_iteration fails_at_once mock_oracle new_session
           "Book a flight to Shiraz" "Connection error.").
  reflexivity.
Defined.

Lemma for_range_returns C O range : ∀ s text,
  (for_range C O range s).1 = Returns text →
  text = max_steps_msg ∨ text = fallback_msg ∨
  (∃ e, text = api_error_msg e) ∨
  (∃ i h model_response,
      C i h = Completion model_response ∧
      content model_response = Some text ∧ text ≠ "").
Proof.
  induction range as [|i range IH]; intros s text; cbn [for_range].
  - intros [= <-]. by left.
  - destruct (C i (history s)) as [e|r] eqn:HC.
    { intros [= <-]. right. right. left. by exists e. }
    destruct (content r) as [[|c t]|] eqn:Hcontent; cbn [if_content].
    2:{ intros [= <-]. right. right. right. exists i, (history s), r. done. }
    all: destruct (tool_calls r) as [|tc calls];
      [intros [= <-]; right; by left|];
      destruct (run_tool_calls O (outside s) (tc :: calls)) as [[outs|e] w1];
      [apply IH|done].
Qed.

(** X21: the text [process_message] returns is never empty: it is the
    maximum-steps message, the clarification request, the apology with the
    text of the service's exception, or the non-empty content of one of the
    service's answers. *)
Theorem process_message_returned_text C O s user_message text :
  (process_message C O s user_message).1 = Returns text →
  text ≠ "" ∧
  (text = max_steps_msg ∨ text = fallback_msg ∨
   (∃ e, text = api_error_msg e) ∨
   (∃ i h model_response,
       C i h = Completion model_response ∧
       content model_response = Some text)).
Proof.
  intros Hret. unfold process_message in Hret.
  apply for_range_returns in Hret
    as [->|[->|[[e ->]|(i & h & r & HC & Hcontent & Hne)]]].
  - split; [done|]. by left.
  - split; [done|]. right. by left.
  - split; [done|]. right. right. left. by exists e.
  - split; [done|]. right. right. right. by exists i, h, r.
Qed.

Lemma process_message_returned_text_witness :
  (process_message looks_up_then_answers mock_oracle new_session
     "Where is my ticket?").1 = Returns "I could not find that ticket." ∧
  "I could not find that ticket." ≠ "" ∧
  ("I could not find that ticket." = max_steps_msg ∨
   "I could not find that ticket." = fallback_msg ∨
   (∃ e, "I could not find that ticket." = api_error_msg e) ∨
   (∃ i h model_response,
       looks_up_then_answers i h = Completion model_response ∧
       content model_response = Some "I could not find that ticket.")).
Proof.
  split; [reflexivity|].
  apply (process_message_returned_text looks_up_then_answers mock_oracle new_session
           "Where is my ticket?" "I could not find that ticket.").
  reflexivity.
Defined.

(** * Properties of the policy corpus loader *)

Lemma lstrip_not_space c s : is_space c = false → lstrip (c :: s) = c :: s.
Proof. intros H. cbn [lstrip]. by rewrite H. Qed.

Lemma lstrip_head s :
  lstrip s = [] ∨ ∃ c t, lstrip s = c :: t ∧ is_space c = false.
Proof.
  induction s as [|c s IH]; [by left|]. cbn [lstrip].
  destruct (is_space c) eqn:Hc; [done|]. right. by exists c, s.
Qed.

Lemma rstrip_head c s :
  is_space c = false → ∃ t, rstrip (c :: s) = c :: t.
Proof.
  intros Hc. cbn [rstrip]. destruct (rstrip s); rewrite ?Hc; by eexists.
Qed.

Lemma rstrip_idemp s : rstrip (rstrip s) = rstrip s.
Proof.
  induction s as [|c s IH]; [done|]. cbn [rstrip].
  destruct (rstrip s) as [|c' t] eqn:Hr.
  - destruct (is_space c) eqn:Hc; [done|]. cbn [rstrip]. by rewrite Hc.
  - cbn [rstrip]. cbn [rstrip] in IH.
    destruct (rstrip t) as [|c'' t'] eqn:Hr'.
    + destruct (is_space c') eqn:Hc'; [done|]. by rewrite IH.
    + by rewrite IH.
Qed.

Lemma strip_idemp s : strip (strip s) = strip s.
Proof.
  unfold strip. destruct (lstrip_head s) as [->|(c & t & -> & Hc)]; [done|].
  destruct (rstrip_head c t Hc) as [t' Ht]. rewrite Ht.
  rewrite (lstrip_not_space c t' Hc), <- Ht. apply rstrip_idemp.
Qed.

Lemma strip_blank s : forallb is_space s = true → strip s = [].
Proof.
  unfold strip. induction s as [|c s IH]; [done|].
  cbn [forallb lstrip]. intros [Hc Hs]%andb_prop. rewrite Hc. by apply IH.
Qed.

Lemma split_blank_lines_cons c rest :
  split_blank_lines (c :: rest) =
    match rest with
    | [] => [[c]]
    | c' :: rest' =>
        if ((c =? 10) && (c' =? 10))%N
        then [] :: split_blank_lines rest'
        else cons_head c (split_blank_lines rest)
    end.
Proof. by destruct rest. Qed.

Lemma split_blank_lines_blank s :
  forallb is_space s = true →
  Forall (λ part, forallb is_space part = true) (split_blank_lines s).
Proof.
  induction s as [s IH] using (induction_ltof1 _ (@length N)).
  unfold ltof in IH.
  destruct s as [|c rest]; [by repeat constructor|].
  intros [Hc Hrest]%andb_prop. rewrite split_blank_lines_cons.
  destruct rest as [|c' rest'].
  { repeat constructor. cbn. by rewrite Hc. }
  destruct ((c =? 10) && (c' =? 10))%N.
  - constructor; [done|]. apply IH; [cbn; lia|].
    cbn [forallb] in Hrest. by apply andb_prop in Hrest as [_ ?].
  - assert (Forall (λ part, forallb is_space part = true)
              (split_blank_lines (c' :: rest'))) as Hparts
      by (apply IH; [cbn; lia|done]).
    destruct (split_blank_lines (c' :: rest')) as [|part parts]; cbn [cons_head].
    + repeat constructor. cbn. by rewrite Hc.
    + inversion Hparts; subst. constructor; [|done]. cbn. by rewrite Hc.
Qed.

Lemma strip_head_not_space s c : head (strip s) = Some c → is_space c = false.
Proof.
  unfold strip. destruct (lstrip_head s) as [->|(c0 & t & -> & Hc)]; [done|].
  destruct (rstrip_head c0 t Hc) as [t' ->]. by intros [= <-].
Qed.

Lemma rstrip_last_not_space s c : last (rstrip s) = Some c → is_space c = false.
Proof.
  induction s as [|c0 s IH]; [done|]. cbn [rstrip].
  destruct (rstrip s) as [|c' t] eqn:Hr.
  - destruct (is_space c0) eqn:Hc; [done|]. by intros [= <-].
  - exact IH.
Qed.

Lemma strip_last_not_space s c : last (strip s) = Some c → is_space c = false.
Proof. apply rstrip_last_not_space. Qed.

Lemma doc_id_inj : Inj (=) (=) (λ i : nat, "doc_" +:+ pretty i).
Proof. intros i j H. by apply (inj pretty), (inj (String.app "doc_")). Qed.

(** X22: what [_load_data] loads into an empty collection: the ids are
    doc_0, doc_1, ... in order, one per document and all different, and
    every document is non-empty and has no white space left at either end
    (stripping it again changes nothing, and neither its first nor its last
    character is one that [str.strip] removes). *)
Theorem loaded_documents_are_stripped add_raises file :
  let collection := _load_data add_raises [] file in
  collection.*1 = (λ i : nat, "doc_" +:+ pretty i) <$> seq 0 (length collection) ∧
  NoDup collection.*1 ∧
  Forall (λ doc, doc ≠ [] ∧ strip doc = doc ∧
                 (∀ c, head doc = Some c → is_space c = false) ∧
                 (∀ c, last doc = Some c → is_space c = false)) collection.*2.
Proof.
  cbn zeta. unfold _load_data. cbn [length Nat.ltb Nat.leb].
  destruct file as [| |content]; try (by repeat constructor).
  set (documents := filter (λ doc, doc ≠ []) (strip <$> split_blank_lines content)).
  assert (Forall (λ doc, doc ≠ [] ∧ strip doc = doc ∧
                         (∀ c, head doc = Some c → is_space c = false) ∧
                         (∀ c, last doc = Some c → is_space c = false)) documents)
    as Hdocs.
  { apply Forall_forall. intros doc [Hne Hin]%list_elem_of_filter.
    split; [done|]. apply list_elem_of_fmap in Hin as (part & -> & _).
    split; [apply strip_idemp|]. split.
    - apply strip_head_not_space.
    - apply strip_last_not_space. }
  clearbody documents.
  destruct documents as [|doc docs]; [by repeat constructor|].
  destruct add_raises; [by repeat constructor|]. cbn [app].
  set (ids := (λ i : nat, "doc_" +:+ pretty i) <$> seq 0 (length (doc :: docs))).
  assert (length ids = length (doc :: docs)) as Hlen
    by (unfold ids; by rewrite length_fmap, length_seq).
  rewrite fst_zip, snd_zip by lia.
  rewrite length_zip_with_l_eq by done. rewrite Hlen.
  split; [done|]. split; [|done].
  unfold ids. apply NoDup_fmap_2; [exact doc_id_inj|apply NoDup_seq].
Qed.

(** X23: a data file that is missing, unreadable, or made of white space
    only (blank lines included), as well as a failing [add], leaves the
    collection empty, and [lookup_policy] on a collection of that size
    answers every query with the error that the knowledge base is not
    available. *)
Theorem blank_corpus_disables_lookup add_raises file O query :
  match file with
  | FileContent content => forallb is_space content = true ∨ add_raises = true
  | _ => True
  end →
  collection_count O = length (_load_data add_raises [] file) →
  _load_data add_raises [] file = [] ∧
  lookup_policy O query =
    Ok {| result_status := error;
          message := [Lit "Policy knowledge base is not available."];
          fields := NoPayload |}.
Proof.
  intros Hfile Hcount.
  assert (_load_data add_raises [] file = []) as Hempty.
  { unfold _load_data. cbn [length Nat.ltb Nat.leb].
    destruct file as [| |content]; try done.
    destruct Hfile as [Hblank| ->].
    - assert (filter (λ doc, doc ≠ []) (strip <$> split_blank_lines content) = [])
        as ->; [|done].
      apply split_blank_lines_blank in Hblank.
      induction Hblank as [|part parts Hpart _ IH]; [done|].
      cbn [fmap list_fmap]. rewrite filter_cons_False; [exact IH|].
      intros Hne. apply Hne. by apply strip_blank.
    - by destruct (filter _ _). }
  split; [exact Hempty|].
  unfold lookup_policy. by rewrite Hcount, Hempty.
Qed.

Lemma blank_corpus_disables_lookup_witness :
  (forallb is_space [10; 10; 32; 160; 8239; 12288]%N = true ∨ false = true) ∧
  collection_count mock_oracle =
    length (_load_data false [] (FileContent [10; 10; 32; 160; 8239; 12288]%N)) ∧
  _load_data false [] (FileContent [10; 10; 32; 160; 8239; 12288]%N) = [] ∧
  lookup_policy mock_oracle (VStr "refund rules") =
    Ok {| result_status := error;
          message := [Lit "Policy knowledge base is not available."];
          fields := NoPayload |}.
Proof.
  split; [by left|]. split; [reflexivity|].
  apply (blank_corpus_disables_lookup false
           (FileContent [10; 10; 32; 160; 8239; 12288]%N) mock_oracle
           (VStr "refund rules")).
  - by left.
  - reflexivity.
Defined.

Example sample_policy_file_loads :
  _load_data false [] (FileContent sample_policy_file) =
    [("doc_0", codes "Refunds are 70 percent of the price.");
     ("doc_1", codes "Baggage allowance is 20 kg.")].
Proof. reflexivity. Qed.

(** A paragraph that ends in the Persian letter meem (U+0645), whose UTF-8
    bytes end in 133, is loaded whole: 133 is white space as a character
    (NEL), not as a byte of another character. *)
Example persian_paragraph_loads :
  _load_data false [] (FileContent ([32]%N ++ [1587; 1604; 1575; 1605]%N ++ [133; 10]%N)) =
    [("doc_0", [1587; 1604; 1575; 1605]%N)].
Proof. reflexivity. Qed.

Lemma lookup_policy_status_witness :
  lookup_policy loaded_oracle (VStr "refund rules") =
    Ok {| result_status := success;
          message := [Lit "Policy information retrieved from Safar Travel knowledge base."];
          fields := Policy sample_policy |} ∧
  (success = error ↔ collection_count loaded_oracle = 0%nat) ∧
  (success = success ↔
     ∃ doc docs others,
       collection_count loaded_oracle ≠ 0%nat ∧
       collection_query loaded_oracle (VStr "refund rules")
         = Ok (Some ((doc :: docs) :: others)) ∧
       Policy sample_policy = Policy doc) ∧
  (success ≠ success → Policy sample_policy = NoPayload).
Proof.
  split; [reflexivity|].
  apply (lookup_policy_status loaded_oracle (VStr "refund rules")
           {| result_status := success;
              message := [Lit "Policy information retrieved from Safar Travel knowledge base."];
              fields := Policy sample_policy |}).
  reflexivity.
Defined.

Lemma split_blank_lines_paragraph p :
  has_blank_line p = false → split_blank_lines p = [p].
Proof.
  induction p as [|c p IH]; [done|]. intros Hp.
  rewrite split_blank_lines_cons. destruct p as [|c' p']; [done|].
  cbn [has_blank_line] in Hp. apply orb_false_elim in Hp as [Hcc Hp].
  rewrite Hcc, IH; [done|exact Hp].
Qed.

Lemma split_blank_lines_app p rest :
  has_blank_line p = false → ends_with_newline p = false →
  split_blank_lines (p ++ blank_line ++ rest) = p :: split_blank_lines rest.
Proof.
  induction p as [|c p IH]; intros Hp Hend.
  - cbn [app blank_line]. by rewrite split_blank_lines_cons.
  - change ((c :: p) ++ blank_line ++ rest) with (c :: (p ++ blank_line ++ rest)).
    rewrite split_blank_lines_cons.
    destruct p as [|c' p'].
    + cbn [app blank_line].
      cbn [ends_with_newline] in Hend. rewrite Hend. cbn [andb].
      by rewrite split_blank_lines_cons.
    + change ((c' :: p') ++ blank_line ++ rest)
        with (c' :: (p' ++ blank_line ++ rest)).
      cbn [has_blank_line] in Hp. apply orb_false_elim in Hp as [Hcc Hp].
      rewrite Hcc.
      change (c' :: (p' ++ blank_line ++ rest))
        with ((c' :: p') ++ blank_line ++ rest).
      rewrite IH; [done|exact Hp|exact Hend].
Qed.

Lemma rstrip_fixed_no_newline p : rstrip p = p → ends_with_newline p = false.
Proof.
  induction p as [|c p IH]; [done|]. cbn [rstrip ends_with_newline].
  destruct (rstrip p) as [|c' t] eqn:Hr.
  - destruct (is_space c) eqn:Hc; [done|]. intros [= <-].
    destruct (c =? 10)%N eqn:Hc10; [|done].
    apply N.eqb_eq in Hc10 as ->. done.
  - intros [= <-]. by apply IH.
Qed.

Lemma paragraph_no_newline_end p : paragraph p → ends_with_newline p = false.
Proof.
  intros (_ & Hstrip & _). apply rstrip_fixed_no_newline.
  rewrite <- Hstrip at 1. unfold strip. rewrite rstrip_idemp. exact Hstrip.
Qed.

Lemma split_blank_lines_join ps :
  ps ≠ [] → Forall paragraph ps →
  split_blank_lines (join blank_line ps) = ps.
Proof.
  induction ps as [|p ps IH]; [done|]. intros _ Hps.
  apply Forall_cons in Hps as [Hp Hps].
  destruct ps as [|q ps].
  - cbn [join]. apply split_blank_lines_paragraph, Hp.
  - change (join blank_line (p :: q :: ps))
      with (p ++ blank_line ++ join blank_line (q :: ps)).
    rewrite split_blank_lines_app, IH; try done.
    + apply Hp.
    + by apply paragraph_no_newline_end.
Qed.

(** X24: a policy file written as paragraphs joined by blank lines is
    loaded paragraph by paragraph: when no paragraph is empty, has white
    space at an end or holds a blank line, the documents of the collection
    are the paragraphs, in order, under the ids doc_0, doc_1, ... *)
Theorem load_data_round_trip ps :
  ps ≠ [] → Forall paragraph ps →
  _load_data false [] (FileContent (join blank_line ps)) =
    zip ((λ i : nat, "doc_" +:+ pretty i) <$> seq 0 (length ps)) ps.
Proof.
  intros Hne Hps. unfold _load_data. cbn [length Nat.ltb Nat.leb].
  rewrite (split_blank_lines_join ps Hne Hps).
  assert (filter (λ doc, doc ≠ []) (strip <$> ps) = ps) as ->.
  { clear Hne. induction Hps as [|p ps (Hp & Hstrip & _) _ IH]; [done|].
    rewrite fmap_cons, Hstrip.
    rewrite filter_cons_True by done. f_equal. exact IH. }
  by destruct ps.
Qed.

Lemma load_data_round_trip_witness :
  sample_paragraphs ≠ [] ∧ Forall paragraph sample_paragraphs ∧
  _load_data false [] (FileContent (join blank_line sample_paragraphs)) =
    zip ((λ i : nat, "doc_" +:+ pretty i) <$> seq 0 (length sample_paragraphs))
        sample_paragraphs.
Proof.
  assert (Forall paragraph sample_paragraphs) as Hps.
  { repeat constructor; discriminate. }
  split; [discriminate|]. split; [exact Hps|].
  apply (load_data_round_trip sample_paragraphs); [discriminate|exact Hps].
Defined.

(** * Properties of sessions *)

(** X25: an exception in the middle of a round ends the turn with that
    exception and keeps what the calls of the round have done, the one that
    raises included: the store is the one it left, while the history has
    the user message and the assistant's tool-call record but none of the
    round's tool results. *)
Theorem exception_in_first_round C O s user_message model_response
    calls tool_call calls' tool_outputs w w' e :
  C 0%nat (history s ++ [UserMessage user_message]) = Completion model_response →
  if_content (content model_response) = None →
  tool_calls model_response = calls ++ tool_call :: calls' →
  run_tool_calls O (outside s) calls = (Ok tool_outputs, w) →
  _execute_tool_call O w tool_call = (Raise e, w') →
  process_message C O s user_message =
    (Raises e,
     {| history := history s ++
                   [UserMessage user_message; AssistantToolCalls model_response];
        outside := w' |}).
Proof.
  intros HC Hcontent Hcalls Hrun Hraise. unfold process_message.
  cbn [seq for_range set_history history outside]. rewrite HC, Hcontent.
  assert (run_tool_calls O (outside s) (tool_calls model_response) = (Raise e, w'))
    as Hround.
  { rewrite Hcalls. clear Hcalls HC. revert tool_outputs Hrun.
    generalize (outside s) as w0.
    induction calls as [|tc calls IH]; intros w0 outs; cbn [app run_tool_calls].
    - intros [= _ <-]. by rewrite Hraise.
    - destruct (_execute_tool_call O w0 tc) as [[res|] w1]; [|done].
      destruct (run_tool_calls O w1 calls) as [[outs1|] w2] eqn:Hrest; [|done].
      intros [= _ <-]. by rewrite (IH _ _ Hrest). }
  rewrite Hround.
  destruct (tool_calls model_response) eqn:Htc.
  - by destruct calls.
  - by rewrite <- app_assoc.
Qed.

Lemma exception_in_first_round_witness :
  run_tool_calls mock_oracle (outside new_session) [complete_booking_request] =
    (Ok [ToolMessage "call_5" "book_ticket" sample_booking.1],
     {| TICKET_DB := sample_booking.2; clock := 1 |}) ∧
  _execute_tool_call mock_oracle {| TICKET_DB := sample_booking.2; clock := 1 |}
    incomplete_booking_request
    = (Raise TypeError, {| TICKET_DB := sample_booking.2; clock := 1 |}) ∧
  process_message books_then_loses_argument mock_oracle new_session
      "Book Tehran to Kish for Sara Ahmadi on 1403/12/20" =
    (Raises TypeError,
     {| history := history new_session ++
                   [UserMessage "Book Tehran to Kish for Sara Ahmadi on 1403/12/20";
                    AssistantToolCalls
                      {| content := None;
                         tool_calls := [complete_booking_request;
                                        incomplete_booking_request] |}];
        outside := {| TICKET_DB := sample_booking.2; clock := 1 |} |}).
Proof.
  split; [reflexivity|]. split; [reflexivity|].
  apply (exception_in_first_round books_then_loses_argument mock_oracle new_session
           "Book Tehran to Kish for Sara Ahmadi on 1403/12/20"
           {| content := None;
              tool_calls := [complete_booking_request; incomplete_booking_request] |}
           [complete_booking_request] incomplete_booking_request []
           [ToolMessage "call_5" "book_ticket" sample_booking.1]
           {| TICKET_DB := sample_booking.2; clock := 1 |}
           {| TICKET_DB := sample_booking.2; clock := 1 |} TypeError);
    reflexivity.
Defined.

Lemma for_range_keeps_keys C O id range : ∀ s,
  is_Some (TICKET_DB (outside s) !! id) →
  is_Some (TICKET_DB (outside (for_range C O range s).2) !! id).
Proof.
  induction range as [|i range IH]; intros s0 Hid; cbn [for_range]; [done|].
  destruct (C i (history s0)) as [e|r]; [done|].
  destruct (if_content (content r)); [done|].
  destruct (tool_calls r) as [|tc calls] eqn:Hcalls; [done|].
  pose proof (run_tool_calls_keeps_keys O (tc :: calls) id (outside s0) Hid) as Hk.
  destruct (run_tool_calls O (outside s0) (tc :: calls)) as [[outs|e] w1]; [|done].
  by apply IH.
Qed.

(** X26: over a whole session, whatever the turns are and however each one
    ends, the system prompt the agent was made with stays the first entry
    of the history, and every ticket that was in the store when the agent
    was made is still in the store. *)
Theorem conversation_keeps_prompt_and_tickets O system_prompt w turns :
  (∃ entries, history (conversation O (new_agent system_prompt w) turns)
              = SystemMessage system_prompt :: entries) ∧
  (∀ id, is_Some (TICKET_DB w !! id) →
         is_Some (TICKET_DB (outside (conversation O (new_agent system_prompt w) turns))
                    !! id)).
Proof.
  unfold conversation.
  assert (∀ s,
            (∃ entries, history s = SystemMessage system_prompt :: entries) →
            (∀ id, is_Some (TICKET_DB w !! id) →
                   is_Some (TICKET_DB (outside s) !! id)) →
            (∃ entries,
                history (foldl (λ s turn, (process_message turn.1 O s turn.2).2) s turns)
                = SystemMessage system_prompt :: entries) ∧
            (∀ id, is_Some (TICKET_DB w !! id) →
                   is_Some (TICKET_DB
                     (outside (foldl (λ s turn, (process_message turn.1 O s turn.2).2)
                                 s turns)) !! id))) as Hturns.
  { induction turns as [|[C m] turns IH]; intros s Hhist Hkeys; [done|].
    cbn [foldl fst snd]. apply IH.
    - destruct Hhist as [entries Hhist].
      assert (history s `prefix_of` history (process_message C O s m).2) as [k Hk].
      { unfold process_message. apply for_range_prefix; cbn [set_history history].
        - by apply prefix_app_r.
        - rewrite length_app. cbn [length]. lia. }
      rewrite Hk, Hhist. by eexists.
    - intros id Hid. unfold process_message. apply for_range_keeps_keys.
      cbn [set_history outside]. by apply Hkeys. }
  apply Hturns; [by eexists|done].
Qed.

Example sample_conversation_history_length :
  length (history (conversation mock_oracle
                     (new_agent "You are the AI Customer Service Agent for Safar Travel."
                        fresh_world)
                     sample_conversation)) = 7%nat.
Proof. reflexivity. Qed.

(** * Reachable stores along a session *)

Lemma dispatch_store_reachable O w tc :
  reachable (TICKET_DB w) → reachable (TICKET_DB (_execute_tool_call O w tc).2).
Proof.
  intros Hreach. unfold _execute_tool_call.
  destruct (func_map !! name (function tc)) as [f|]; [|done].
  destruct (json_loads _) as [v|e]; [|by destruct e].
  destruct (py_print O _); [done|].
  unfold call. destruct (bind_kwargs f v) as [args|]; [|done].
  destruct f.
  - destruct args as [|a1 [|a2 [|a3 [|a4 [|a5 [|]]]]]]; try done.
    pose proof (reachable_book O (uuid4_hex O (clock w)) (strftime_now O (clock w))
                  (TICKET_DB w) a1 a2 a3 a4 a5 Hreach) as Hb.
    by destruct (book_ticket _ _ _ _ _ _ _ _ _) as [r0 db0].
  - destruct args as [|a1 [|]]; try done.
    pose proof (reachable_cancel O (strftime_now O (clock w)) (TICKET_DB w) a1 Hreach)
      as Hc.
    by destruct (cancel_ticket _ _ _ _) as [r0 db0].
  - by destruct args as [|a1 [|]].
  - by destruct args as [|a1 [|]].
  - by destruct args as [|a1 [|]].
Qed.

Lemma run_tool_calls_store_reachable O calls : ∀ w,
  reachable (TICKET_DB w) →
  reachable (TICKET_DB (run_tool_calls O w calls).2).
Proof.
  induction calls as [|tc calls IH]; intros w Hreach; cbn [run_tool_calls]; [done|].
  pose proof (dispatch_store_reachable O w tc Hreach) as Hx.
  destruct (_execute_tool_call O w tc) as [[res|e] w0]; [|done].
  specialize (IH w0 Hx).
  by destruct (run_tool_calls O w0 calls) as [[outs|e] w1].
Qed.

Lemma for_range_store_reachable C O range : ∀ s,
  reachable (TICKET_DB (outside s)) →
  reachable (TICKET_DB (outside (for_range C O range s).2)).
Proof.
  induction range as [|i range IH]; intros s Hreach; cbn [for_range]; [done|].
  destruct (C i (history s)) as [e|r]; [done|].
  destruct (if_content (content r)); [done|].
  destruct (tool_calls r) as [|tc calls] eqn:Hcalls; [done|].
  pose proof (run_tool_calls_store_reachable O (tc :: calls) (outside s) Hreach) as Hk.
  destruct (run_tool_calls O (outside s) (tc :: calls)) as [[outs|e] w1]; [|done].
  by apply IH.
Qed.

(** X28: the store invariants hold all along a session: when the agent is
    made on a store that bookings and cancellations can reach (the empty
    store at start-up), the store after any series of turns, however each
    one ends, is again such a store. *)
Theorem conversation_store_reachable O system_prompt w turns :
  reachable (TICKET_DB w) →
  reachable (TICKET_DB (outside (conversation O (new_agent system_prompt w) turns))).
Proof.
  intros Hreach. unfold conversation.
  change (TICKET_DB w) with (TICKET_DB (outside (new_agent system_prompt w))) in Hreach.
  revert Hreach. generalize (new_agent system_prompt w) as s.
  induction turns as [|[C m] turns IH]; intros s Hreach; [done|].
  cbn [foldl fst snd]. apply IH. unfold process_message.
  by apply for_range_store_reachable.
Qed.

Lemma conversation_store_reachable_witness :
  reachable (TICKET_DB fresh_world) ∧
  reachable (TICKET_DB (outside
    (conversation mock_oracle
       (new_agent "You are the AI Customer Service Agent for Safar Travel." fresh_world)
       sample_conversation))).
Proof.
  split; [apply reachable_empty|].
  apply (conversation_store_reachable mock_oracle
           "You are the AI Customer Service Agent for Safar Travel." fresh_world
           sample_conversation).
  apply reachable_empty.
Defined.



